(** * Hotel management system: booking-conflict and billing engine

    A shallow embedding of [hotel.py] ([Bill], [HotelManager]) together with
    the data holders of [room.py], [guest.py] and [booking.py].

    - Python [str] is [string]; [None]-able arguments are [option].
    - [datetime.date] is its proleptic Gregorian ordinal ([date.toordinal()]),
      an integer: dates compare as integers and [(a - b).days] is the
      difference of the ordinals.
    - Python [float] is the kernel's IEEE 754 binary64 [float].
    - The manager object is a record of its four lists; every method takes
      the manager and gives back its result together with the manager after
      the call.  A raised [ValueError] is the [Raise] outcome.
    - [uuid4], [datetime.now] are inputs of the methods that call them.
    - [print] and [save_data] (which only serialises the four lists to disk,
      swallowing every error) never touch the lists and are left out. *)

From Stdlib Require Import ZArith List String Ascii Bool Lia Floats.
Import ListNotations.

Local Open Scope string_scope.
Local Open Scope Z_scope.

(** ** Python floats *)

Module PyFloat.

(** [float(n)] for a Python [int]; exact below [2^53], which covers every
    difference of two dates. *)
Definition of_int (n : Z) : float :=
  if n <? 0 then PrimFloat.opp (PrimFloat.of_uint63 (Uint63.of_Z (- n)))
  else PrimFloat.of_uint63 (Uint63.of_Z n).

(** [total = 0] then [total += x] for each [x], left to right. *)
Definition sum (xs : list float) : float :=
  fold_left PrimFloat.add xs PrimFloat.zero.

End PyFloat.

(** ** Dates *)

(** A [datetime.date], as its ordinal. *)
Definition date := Z.

(** ** Outcomes and the manager's monad *)

(** What a call gives: a returned value, or a raised [ValueError(msg)]. *)
Inductive outcome (A : Type) : Type :=
| Return (a : A)
| ValueError (msg : string).
Arguments Return {A} a.
Arguments ValueError {A} msg.

(** ** The entities *)

Module Room.
Record t := mk {
  number : string;
  type : string;
  price : float;
  is_occupied : bool }.
End Room.

Module Guest.
Record t := mk {
  guest_id : string;
  name : string;
  phone : string;
  email : string;
  address : string }.
End Guest.

Module Booking.
Record t := mk {
  booking_id : string;
  guest_id : string;
  room_number : string;
  check_in : date;
  check_out : date;
  is_active : bool }.

(** [booking.check_in = ci; booking.check_out = co] *)
Definition set_dates (ci co : date) (b : t) : t :=
  mk (booking_id b) (guest_id b) (room_number b) ci co (is_active b).
End Booking.

Module Bill.
Record t := mk {
  bill_id : string;
  booking_id : string;
  amount : float;
  status : string;
  payment_date : option date }.

(** [Bill.__init__(bill_id, booking_id, amount, status="UNPAID")]:
    [payment_date] starts as [None]. *)
Definition init (bill_id booking_id : string) (amount : float) : t :=
  mk bill_id booking_id amount "UNPAID" None.

(** [bill.status = "PAID"; bill.payment_date = today] *)
Definition pay (today : date) (b : t) : t :=
  mk (bill_id b) (booking_id b) (amount b) "PAID" (Some today).
End Bill.

(** The manager's in-memory store: [self.rooms], [self.guests],
    [self.bookings], [self.bills]. *)
Record HotelManager := mkHotel {
  rooms : list Room.t;
  guests : list Guest.t;
  bookings : list Booking.t;
  bills : list Bill.t }.

(** [HotelManager()] over an empty data directory. *)
Definition empty_hotel : HotelManager := mkHotel [] [] [] [].

Definition set_rooms (l : list Room.t) (h : HotelManager) :=
  mkHotel l (guests h) (bookings h) (bills h).
Definition set_guests (l : list Guest.t) (h : HotelManager) :=
  mkHotel (rooms h) l (bookings h) (bills h).
Definition set_bookings (l : list Booking.t) (h : HotelManager) :=
  mkHotel (rooms h) (guests h) l (bills h).
Definition set_bills (l : list Bill.t) (h : HotelManager) :=
  mkHotel (rooms h) (guests h) (bookings h) l.

(** A method: from the manager before the call to the outcome and the manager
    after it.  A raise keeps the store as it is at the raise. *)
Definition M (A : Type) : Type := HotelManager -> outcome A * HotelManager.

Definition ret {A} (a : A) : M A := fun h => (Return a, h).
Definition raise {A} (msg : string) : M A := fun h => (ValueError msg, h).
Definition bind {A B} (m : M A) (k : A -> M B) : M B :=
  fun h => match m h with
           | (Return a, h') => k a h'
           | (ValueError msg, h') => (ValueError msg, h')
           end.
(** [try: body except ValueError as e: handler(e)] *)
Definition try_except {A} (body : M A) (handler : string -> M A) : M A :=
  fun h => match body h with
           | (Return a, h') => (Return a, h')
           | (ValueError msg, h') => handler msg h'
           end.
Definition get : M HotelManager := fun h => (Return h, h).
Definition modify (f : HotelManager -> HotelManager) : M unit :=
  fun h => (Return tt, f h).
Definition lift {A} (o : outcome A) : M A := fun h => (o, h).

Notation "x <- m ;; k" := (bind m (fun x => k))
  (at level 61, m at next level, right associativity).
Notation "m ;;; k" := (bind m (fun _ => k))
  (at level 61, right associativity).

(** ** List helpers for the [for] loops *)

(** The object a [for x in l: if p(x): ...; break] loop stops at is mutated in
    place: the first element satisfying [p] becomes [f] of itself. *)
Fixpoint update_first {A} (p : A -> bool) (f : A -> A) (l : list A) : list A :=
  match l with
  | [] => []
  | x :: rest => if p x then f x :: rest else x :: update_first p f rest
  end.

(** ** The manager's methods *)

Section Manager.

(** [datetime.datetime.strptime(s, "%Y-%m-%d").date()]: the date, or the
    [ValueError] of the library with its message. *)
Variable strptime : string -> outcome date.

(** [float(s)] on a string: [None] stands for its [ValueError]. *)
Variable float_of_str : string -> option float.

(** [s.strip()], the library's, on any string. *)
Variable strip : string -> string.

(** [x and x.strip()] as a condition, for an argument that defaults to
    [None]. *)
Definition given (x : option string) : bool :=
  match x with
  | Some s => negb (String.eqb s "") && negb (String.eqb (strip s) "")
  | None => false
  end.

(** *** Lookups *)

Definition find_room (h : HotelManager) (room_number : string) : option Room.t :=
  find (fun room => String.eqb (Room.number room) room_number) (rooms h).

Definition find_guest (h : HotelManager) (guest_id : string) : option Guest.t :=
  find (fun guest => String.eqb (Guest.guest_id guest) guest_id) (guests h).

Definition find_booking (h : HotelManager) (booking_id : string) : option Booking.t :=
  find (fun booking => String.eqb (Booking.booking_id booking) booking_id) (bookings h).

(** *** Rooms *)

Definition add_room (room_number room_type : string) (price : float) : M bool :=
  h <- get ;;
  match find_room h room_number with
  | Some _ => ret false
  | None =>
      modify (set_rooms (rooms h ++ [Room.mk room_number room_type price false])) ;;;
      ret true
  end.

Definition update_room (room_number : string) (room_type price : option string)
  : M bool :=
  h <- get ;;
  match find_room h room_number with
  | None => ret false
  | Some _ =>
      let this room := String.eqb (Room.number room) room_number in
      (if given room_type then
         modify (fun h => set_rooms (update_first this
           (fun room => Room.mk (Room.number room)
                          (match room_type with Some t => t | None => Room.type room end)
                          (Room.price room) (Room.is_occupied room))
           (rooms h)) h)
       else ret tt) ;;;
      (if given price then
         match float_of_str (match price with Some p => p | None => "" end) with
         | Some x =>
             modify (fun h => set_rooms (update_first this
               (fun room => Room.mk (Room.number room) (Room.type room) x
                              (Room.is_occupied room))
               (rooms h)) h)
         | None => ret tt
         end
       else ret tt) ;;;
      ret true
  end.

(** *** Guests *)

Definition add_guest (uuid : string) (name phone email address : string)
  : M string :=
  modify (fun h => set_guests (guests h ++ [Guest.mk uuid name phone email address]) h) ;;;
  ret uuid.

Definition or_keep (new : option string) (old : string) : string :=
  if given new then match new with Some s => s | None => old end else old.

Definition update_guest (guest_id : string) (name phone email address : option string)
  : M bool :=
  h <- get ;;
  match find_guest h guest_id with
  | None => ret false
  | Some _ =>
      modify (set_guests (update_first
        (fun guest => String.eqb (Guest.guest_id guest) guest_id)
        (fun guest => Guest.mk (Guest.guest_id guest)
                        (or_keep name (Guest.name guest))
                        (or_keep phone (Guest.phone guest))
                        (or_keep email (Guest.email guest))
                        (or_keep address (Guest.address guest)))
        (guests h))) ;;;
      ret true
  end.

(** *** Availability *)

(** [exclude_booking_id and booking.booking_id == exclude_booking_id]: an
    empty id is falsy, like [None]. *)
Definition excluded (exclude_booking_id : option string) (booking : Booking.t)
  : bool :=
  match exclude_booking_id with
  | Some e => negb (String.eqb e "") && String.eqb (Booking.booking_id booking) e
  | None => false
  end.

(** The scan of [self.bookings]. *)
Fixpoint is_room_available (bookings : list Booking.t) (room_number : string)
    (check_in check_out : date) (exclude_booking_id : option string) : bool :=
  match bookings with
  | [] => true
  | booking :: rest =>
      if String.eqb (Booking.room_number booking) room_number then
        if excluded exclude_booking_id booking then
          is_room_available rest room_number check_in check_out exclude_booking_id
        else if (check_in <? Booking.check_out booking)
                && (check_out >? Booking.check_in booking) then false
        else is_room_available rest room_number check_in check_out exclude_booking_id
      else is_room_available rest room_number check_in check_out exclude_booking_id
  end.

(** *** Bookings *)

Definition create_booking (uuid : string)
    (guest_id room_number check_in check_out : string) : M (option string) :=
  h <- get ;;
  match find_guest h guest_id with
  | None => ret None
  | Some _ =>
    match find_room h room_number with
    | None => ret None
    | Some _ =>
      try_except
        (check_in_date <- lift (strptime check_in) ;;
         check_out_date <- lift (strptime check_out) ;;
         if check_out_date <=? check_in_date then
           raise "Check-out date must be after check-in date."
         else
           h <- get ;;
           if negb (is_room_available (bookings h) room_number
                      check_in_date check_out_date None)
           then ret None
           else
             modify (fun h => set_bookings
               (bookings h ++ [Booking.mk uuid guest_id room_number
                                 check_in_date check_out_date true]) h) ;;;
             ret (Some uuid))
        (fun e => raise ("Invalid date format. Please use YYYY-MM-DD format. " ++ e))
    end
  end.

Definition update_booking (booking_id : string) (check_in check_out : option string)
  : M bool :=
  h <- get ;;
  match find_booking h booking_id with
  | None => ret false
  | Some booking =>
      check_in_date <-
        (if given check_in then
           try_except
             (lift (strptime (match check_in with Some s => s | None => "" end)))
             (fun _ => raise "Invalid check-in date format. Please use YYYY-MM-DD format.")
         else ret (Booking.check_in booking)) ;;
      check_out_date <-
        (if given check_out then
           try_except
             (lift (strptime (match check_out with Some s => s | None => "" end)))
             (fun _ => raise "Invalid check-out date format. Please use YYYY-MM-DD format.")
         else ret (Booking.check_out booking)) ;;
      if check_out_date <=? check_in_date then
        raise "Check-out date must be after check-in date."
      else
        h <- get ;;
        if negb (is_room_available (bookings h) (Booking.room_number booking)
                   check_in_date check_out_date (Some booking_id))
        then ret false
        else
          modify (fun h => set_bookings
            (update_first
               (fun b => String.eqb (Booking.booking_id b) booking_id)
               (Booking.set_dates check_in_date check_out_date)
               (bookings h)) h) ;;;
          ret true
  end.

Definition cancel_booking (booking_id : string) : M bool :=
  h <- get ;;
  match find_booking h booking_id with
  | None => ret false
  | Some _ =>
      modify (set_bookings
        (filter (fun b => negb (String.eqb (Booking.booking_id b) booking_id))
                (bookings h))) ;;;
      ret true
  end.

(** *** Billing *)

(** [for bill in self.bills: if bill.booking_id == booking_id: return bill] *)
Definition existing_bill (h : HotelManager) (booking_id : string) : option Bill.t :=
  find (fun bill => String.eqb (Bill.booking_id bill) booking_id) (bills h).

Definition generate_bill (uuid : string) (booking_id : string) : M (option Bill.t) :=
  h <- get ;;
  match find_booking h booking_id with
  | None => ret None
  | Some booking =>
    match existing_bill h booking_id with
    | Some bill => ret (Some bill)
    | None =>
      match find_room h (Booking.room_number booking) with
      | None => ret None
      | Some room =>
          let days := Booking.check_out booking - Booking.check_in booking in
          let amount := PrimFloat.mul (PyFloat.of_int days) (Room.price room) in
          let bill := Bill.init uuid booking_id amount in
          modify (fun h => set_bills (bills h ++ [bill]) h) ;;;
          ret (Some bill)
      end
    end
  end.

(** [for b in self.bills: if b.bill_id == bill_id: bill = b; break] *)
Definition find_bill (h : HotelManager) (bill_id : string) : option Bill.t :=
  find (fun b => String.eqb (Bill.bill_id b) bill_id) (bills h).

Definition process_payment (today : date) (bill_id : string) (amount : float)
  : M bool :=
  h <- get ;;
  match find_bill h bill_id with
  | None => ret false
  | Some bill =>
      if String.eqb (Bill.status bill) "PAID" then ret false
      else if PrimFloat.ltb amount (Bill.amount bill) then ret false
      else
        modify (fun h => set_bills
          (update_first (fun b => String.eqb (Bill.bill_id b) bill_id)
                        (Bill.pay today) (bills h)) h) ;;;
        ret true
  end.

(** *** Revenue report *)

(** The figures the report prints. [room_type_revenue] is the dict, in
    insertion order. *)
Record revenue := mkRevenue {
  total_revenue : float;
  paid_bills : Z;
  unpaid_bills : Z;
  room_type_revenue : list (string * float) }.

(** [if k not in d: d[k] = 0] then [d[k] += x] *)
Fixpoint dict_add (k : string) (x : float) (d : list (string * float))
  : list (string * float) :=
  match d with
  | [] => [(k, PrimFloat.add PrimFloat.zero x)]
  | (k', v) :: rest =>
      if String.eqb k' k then (k', PrimFloat.add v x) :: rest
      else (k', v) :: dict_add k x rest
  end.

(** [start <= bill.payment_date <= end], behind the truthiness test of
    [bill.payment_date]. *)
Definition paid_within (start end_ : date) (bill : Bill.t) : bool :=
  String.eqb (Bill.status bill) "PAID" &&
  match Bill.payment_date bill with
  | Some d => (start <=? d) && (d <=? end_)
  | None => false
  end.

(** One turn of [for bill in self.bills]. *)
Definition revenue_step (h : HotelManager) (start end_ : date)
    (acc : revenue) (bill : Bill.t) : revenue :=
  match find_booking h (Bill.booking_id bill) with
  | None => acc
  | Some booking =>
      let acc :=
        if paid_within start end_ bill then
          mkRevenue (PrimFloat.add (total_revenue acc) (Bill.amount bill))
                    (paid_bills acc + 1)
                    (unpaid_bills acc)
                    (match find_room h (Booking.room_number booking) with
                     | Some room =>
                         dict_add (Room.type room) (Bill.amount bill)
                                  (room_type_revenue acc)
                     | None => room_type_revenue acc
                     end)
        else acc in
      if String.eqb (Bill.status bill) "UNPAID"
         && (Booking.check_in booking <=? end_)
         && (Booking.check_out booking >=? start)
      then mkRevenue (total_revenue acc) (paid_bills acc)
                     (unpaid_bills acc + 1) (room_type_revenue acc)
      else acc
  end.

Definition generate_revenue_report (start_date end_date : string) : M revenue :=
  range <-
    try_except
      (start <- lift (strptime start_date) ;;
       end_ <- lift (strptime end_date) ;;
       if end_ <? start then raise "End date must be after start date."
       else ret (start, end_))
      (fun e => raise ("Invalid date format. Please use YYYY-MM-DD format. " ++ e)) ;;
  h <- get ;;
  ret (fold_left (revenue_step h (fst range) (snd range)) (bills h)
                 (mkRevenue PrimFloat.zero 0 0 [])).

(** *** Calls and reachable stores *)

(** A call of one of the manager's mutating methods, with what [uuid4] and
    [datetime.now] gave it. *)
Inductive call : Type :=
| AddRoom (room_number room_type : string) (price : float)
| UpdateRoom (room_number : string) (room_type price : option string)
| AddGuest (uuid name phone email address : string)
| UpdateGuest (guest_id : string) (name phone email address : option string)
| CreateBooking (uuid guest_id room_number check_in check_out : string)
| UpdateBooking (booking_id : string) (check_in check_out : option string)
| CancelBooking (booking_id : string)
| GenerateBill (uuid booking_id : string)
| ProcessPayment (today : date) (bill_id : string) (amount : float).

(** The store a call leaves, however it ends. *)
Definition run (c : call) (h : HotelManager) : HotelManager :=
  match c with
  | AddRoom n t p => snd (add_room n t p h)
  | UpdateRoom n t p => snd (update_room n t p h)
  | AddGuest u n p e a => snd (add_guest u n p e a h)
  | UpdateGuest g n p e a => snd (update_guest g n p e a h)
  | CreateBooking u g r ci co => snd (create_booking u g r ci co h)
  | UpdateBooking b ci co => snd (update_booking b ci co h)
  | CancelBooking b => snd (cancel_booking b h)
  | GenerateBill u b => snd (generate_bill u b h)
  | ProcessPayment t b a => snd (process_payment t b a h)
  end.

(** The stores the manager's calls lead to, whatever [uuid4] gives. *)
Inductive reachable : HotelManager -> Prop :=
| reach_empty : reachable empty_hotel
| reach_call h c : reachable h -> reachable (run c h).

Definition run_all (cs : list call) (h : HotelManager) : HotelManager :=
  fold_left (fun h c => run c h) cs h.

End Manager.

(** ** The calendar behind [strptime]

    The library routine the methods call, on strings of ASCII characters,
    after the regular expression [_strptime] builds for ["%Y-%m-%d"]: four
    digits of year, a month [1[0-2]|0[1-9]|[1-9]], a day
    [3[01]|[12]\d|0[1-9]|[1-9]| [1-9]], separated by [-]; and the ordinal of
    the date as [date.toordinal] counts it. Digits outside ASCII, which
    [\d] also accepts, are not read, and the message of a string that does
    not match quotes it as [repr] does a string free of quotes and
    escapes. *)

Module Calendar.

Definition is_leap (year : Z) : bool :=
  (year mod 4 =? 0) && (negb (year mod 100 =? 0) || (year mod 400 =? 0)).

Definition days_before_year (year : Z) : Z :=
  let y := year - 1 in y * 365 + y / 4 - y / 100 + y / 400.

Definition days_in_month (year month : Z) : Z :=
  if (month =? 2) && is_leap year then 29
  else nth (Z.to_nat month) [0; 31; 28; 31; 30; 31; 30; 31; 31; 30; 31; 30; 31] 0.

Definition days_before_month (year month : Z) : Z :=
  nth (Z.to_nat month) [0; 0; 31; 59; 90; 120; 151; 181; 212; 243; 273; 304; 334] 0
  + (if (month >? 2) && is_leap year then 1 else 0).

Definition ymd2ord (year month day : Z) : date :=
  days_before_year year + days_before_month year month + day.

Definition digit (c : ascii) : option Z :=
  let n := Z.of_nat (nat_of_ascii c) in
  if (48 <=? n) && (n <=? 57) then Some (n - 48) else None.

(** One or two leading digits and what follows them. *)
Definition number12 (s : string) : option (Z * string) :=
  match s with
  | String a rest =>
      match digit a with
      | None => None
      | Some x =>
          match rest with
          | String b rest' =>
              match digit b with
              | Some y => Some (10 * x + y, rest')
              | None => Some (x, rest)
              end
          | EmptyString => Some (x, rest)
          end
      end
  | EmptyString => None
  end.

Definition no_match (s : string) : outcome date :=
  ValueError ("time data '" ++ s ++ "' does not match format '%Y-%m-%d'").

(** The day, by the alternatives of its pattern in their order, and what
    follows it. *)
Definition day_of (s : string) : option (Z * string) :=
  match s with
  | String a rest =>
      let two :=
        match rest with
        | String b rest' =>
            match digit a, digit b with
            | Some x, Some y =>
                if ((x =? 3) && (y <=? 1)) || (x =? 1) || (x =? 2)
                   || ((x =? 0) && (1 <=? y))
                then Some (10 * x + y, rest')
                else None
            | _, _ => None
            end
        | EmptyString => None
        end in
      match two with
      | Some r => Some r
      | None =>
          match digit a with
          | Some x => if 1 <=? x then Some (x, rest) else None
          | None =>
              match rest with
              | String b rest' =>
                  if Ascii.eqb a " " then
                    match digit b with
                    | Some y => if 1 <=? y then Some (y, rest') else None
                    | None => None
                    end
                  else None
              | EmptyString => None
              end
          end
      end
  | EmptyString => None
  end.

Definition strptime (s : string) : outcome date :=
  match s with
  | String a (String b (String c (String d (String "-" rest)))) =>
      match digit a, digit b, digit c, digit d with
      | Some y1, Some y2, Some y3, Some y4 =>
          let year := 1000 * y1 + 100 * y2 + 10 * y3 + y4 in
          match number12 rest with
          | Some (month, String "-" rest') =>
              if (1 <=? month) && (month <=? 12) then
                match day_of rest' with
                | Some (day, tail) =>
                    if negb (String.eqb tail "") then
                      ValueError ("unconverted data remains: " ++ tail)
                    else if year =? 0 then ValueError "year 0 is out of range"
                    else if day <=? days_in_month year month then
                      Return (ymd2ord year month day)
                    else ValueError "day is out of range for month"
                | None => no_match s
                end
              else no_match s
          | _ => no_match s
          end
      | _, _, _, _ => no_match s
      end
  | _ => no_match s
  end.

(** A reader of unsigned whole numbers of at most fifteen digits, which
    [float(s)] reads to the same value; the examples take it for
    [float(s)] and use no other spelling of a number. *)
Fixpoint whole (fuel : nat) (acc : Z) (s : string) : option Z :=
  match s, fuel with
  | EmptyString, _ => Some acc
  | String c rest, S fuel' =>
      match digit c with
      | Some x => whole fuel' (10 * acc + x) rest
      | None => None
      end
  | String _ _, O => None
  end.

Definition float_of_str (s : string) : option float :=
  match s with
  | EmptyString => None
  | _ => option_map PyFloat.of_int (whole 15 0 s)
  end.

End Calendar.

(** ** The date properties of a booking ([booking.py]) *)

Module BookingDates.

(** [booking.duration] *)
Definition duration (b : Booking.t) : Z :=
  Booking.check_out b - Booking.check_in b.

(** [booking.is_current], [datetime.now().date()] being [today] *)
Definition is_current (today : date) (b : Booking.t) : bool :=
  (Booking.check_in b <=? today) && (today <=? Booking.check_out b).

(** [booking.is_future] *)
Definition is_future (today : date) (b : Booking.t) : bool :=
  Booking.check_in b >? today.

(** [booking.is_past] *)
Definition is_past (today : date) (b : Booking.t) : bool :=
  Booking.check_out b <? today.

End BookingDates.

(** ** The occupancy report *)

(** The figures the report prints; [room_types] is the dict of
    [{"total": _, "occupied": _}] per room type, in insertion order. *)
Record occupancy := mkOccupancy {
  total_rooms : Z;
  occupied_rooms : Z;
  occupancy_rate : float;
  room_types : list (string * (Z * Z)) }.

(** The inner [for booking in self.bookings: if ...: ...; break]: some
    booking of the room has [check_in <= today <= check_out]. *)
Definition occupied_on (h : HotelManager) (today : date) (room : Room.t) : bool :=
  existsb (fun booking =>
             String.eqb (Booking.room_number booking) (Room.number room)
             && ((Booking.check_in booking <=? today)
                 && (today <=? Booking.check_out booking)))
          (bookings h).

(** [if t not in d: d[t] = {"total": 0, "occupied": 0}], [d[t]["total"] += 1]
    and, for an occupied room, [d[t]["occupied"] += 1]. *)
Fixpoint type_add (t : string) (occupied : bool) (d : list (string * (Z * Z)))
  : list (string * (Z * Z)) :=
  match d with
  | [] => [(t, (0 + 1, if occupied then 0 + 1 else 0))]
  | (t', (total, occ)) :: rest =>
      if String.eqb t' t
      then (t', (total + 1, if occupied then occ + 1 else occ)) :: rest
      else (t', (total, occ)) :: type_add t occupied rest
  end.

(** [(part / whole) * 100 if whole > 0 else 0], on counts (far below
    [2^53], where the division of two ints is that of their floats). *)
Definition percentage (part whole : Z) : float :=
  if whole >? 0 then
    PrimFloat.mul (PrimFloat.div (PyFloat.of_int part) (PyFloat.of_int whole))
                  (PyFloat.of_int 100)
  else PrimFloat.zero.

(** [generate_occupancy_report], [datetime.now().date()] being [today]:
    [None] stands for the early return on a hotel without rooms. *)
Definition generate_occupancy_report (today : date) : M (option occupancy) :=
  h <- get ;;
  match rooms h with
  | [] => ret None
  | _ =>
      let total := Z.of_nat (List.length (rooms h)) in
      let occupied :=
        fold_left (fun n room => if occupied_on h today room then n + 1 else n)
                  (rooms h) 0 in
      ret (Some (mkOccupancy total occupied (percentage occupied total)
                   (fold_left (fun d room =>
                                 type_add (Room.type room) (occupied_on h today room) d)
                              (rooms h) [])))
  end.

(** ** Guest statistics *)

(** The figures the statistics print; [top_guests] are the rows
    [(guest_id, name, bookings)] of the ranking. *)
Record guest_statistics := mkStatistics {
  total_guests : Z;
  guests_with_bookings_count : Z;
  guests_without_bookings : Z;
  top_guests : list (string * string * Z) }.

(** [s.add(x)] on a set, kept as a list without repeats (only its size is
    read). *)
Definition set_add (x : string) (s : list string) : list string :=
  if existsb (String.eqb x) s then s else (s ++ [x])%list.

(** [if k not in d: d[k] = 0] then [d[k] += 1] *)
Fixpoint count_add (k : string) (d : list (string * Z)) : list (string * Z) :=
  match d with
  | [] => [(k, 0 + 1)]
  | (k', n) :: rest =>
      if String.eqb k' k then (k', n + 1) :: rest else (k', n) :: count_add k rest
  end.

(** [sorted(items, key=lambda x: x[1], reverse=True)]: descending by count,
    items of equal count staying in their order. *)
Fixpoint insert_desc (x : string * Z) (l : list (string * Z)) : list (string * Z) :=
  match l with
  | [] => [x]
  | y :: rest => if snd y <? snd x then x :: y :: rest else y :: insert_desc x rest
  end.

Definition sorted_desc (items : list (string * Z)) : list (string * Z) :=
  fold_left (fun acc x => insert_desc x acc) items [].

(** [generate_guest_statistics]: [None] stands for the early return when no
    guest is registered. *)
Definition generate_guest_statistics : M (option guest_statistics) :=
  h <- get ;;
  match guests h with
  | [] => ret None
  | _ =>
      let total := Z.of_nat (List.length (guests h)) in
      let guests_with_bookings :=
        fold_left (fun s booking => set_add (Booking.guest_id booking) s)
                  (bookings h) [] in
      let with_count := Z.of_nat (List.length guests_with_bookings) in
      let guest_booking_count :=
        fold_left (fun d booking => count_add (Booking.guest_id booking) d)
                  (bookings h) [] in
      let row (item : string * Z) :=
        (fst item,
         match find_guest h (fst item) with
         | Some guest => Guest.name guest
         | None => "Unknown"
         end,
         snd item) in
      ret (Some (mkStatistics total with_count (total - with_count)
                   (map row (firstn 5 (sorted_desc guest_booking_count)))))
  end.

(** ** Whitespace, for the examples

    [str.strip()] on a string held as its UTF-8 bytes: the characters
    [str.isspace()] accepts are U+0009 to U+000D, U+001C to U+0020, U+0085,
    U+00A0, U+1680, U+2000 to U+200A, U+2028, U+2029, U+202F, U+205F and
    U+3000. *)

Module PyStr.

Definition code (c : ascii) : Z := Z.of_nat (nat_of_ascii c).

Definition space1 (a : Z) : bool :=
  ((9 <=? a) && (a <=? 13)) || ((28 <=? a) && (a <=? 32)).

Definition space2 (a b : Z) : bool :=
  (a =? 194) && ((b =? 133) || (b =? 160)).

Definition space3 (a b c : Z) : bool :=
  ((a =? 225) && (b =? 154) && (c =? 128))
  || ((a =? 226) && (b =? 128)
      && (((128 <=? c) && (c <=? 138)) || (c =? 168) || (c =? 169) || (c =? 175)))
  || ((a =? 226) && (b =? 129) && (c =? 159))
  || ((a =? 227) && (b =? 128) && (c =? 128)).

Fixpoint lstrip (s : string) : string :=
  match s with
  | EmptyString => EmptyString
  | String a rest =>
      if space1 (code a) then lstrip rest
      else
        match rest with
        | String b rest2 =>
            if space2 (code a) (code b) then lstrip rest2
            else
              match rest2 with
              | String c rest3 =>
                  if space3 (code a) (code b) (code c) then lstrip rest3 else s
              | EmptyString => s
              end
        | EmptyString => s
        end
  end.

Fixpoint rstrip (s : string) : string :=
  match s with
  | EmptyString => EmptyString
  | String a rest =>
      if String.eqb (lstrip s) "" then EmptyString else String a (rstrip rest)
  end.

Definition strip (s : string) : string := rstrip (lstrip s).

End PyStr.

(** * The vocabulary of the properties *)

(** ** Availability *)

(** The half-open overlap test of the range [check_in, check_out) against a
    stored booking. *)
Definition overlaps (check_in check_out : date) (other : Booking.t) : Prop :=
  check_in < Booking.check_out other /\ check_out > Booking.check_in other.

(** The booking the scan leaves out: the one with the given id, an empty id
    counting as none given. *)
Definition left_out (exclude_booking_id : option string) (b : Booking.t) : Prop :=
  exists e, exclude_booking_id = Some e /\ e <> "" /\ Booking.booking_id b = e.

(** Two bookings that differ at most in [is_active]. *)
Definition same_but_is_active (a b : Booking.t) : Prop :=
  Booking.booking_id a = Booking.booking_id b /\
  Booking.guest_id a = Booking.guest_id b /\
  Booking.room_number a = Booking.room_number b /\
  Booking.check_in a = Booking.check_in b /\
  Booking.check_out a = Booking.check_out b.

(** Two bookings on one room whose half-open stays overlap. *)
Definition clash (a b : Booking.t) : Prop :=
  Booking.room_number a = Booking.room_number b /\
  Booking.check_in a < Booking.check_out b /\
  Booking.check_out a > Booking.check_in b.

(** No two stored bookings of different ids clash. *)
Definition no_double_booking (l : list Booking.t) : Prop :=
  forall i j a b, nth_error l i = Some a -> nth_error l j = Some b ->
                  Booking.booking_id a <> Booking.booking_id b -> ~ clash a b.

(** The same, by recursion on the list. *)
Fixpoint clash_free (l : list Booking.t) : Prop :=
  match l with
  | [] => True
  | a :: rest =>
      Forall (fun b => Booking.booking_id a <> Booking.booking_id b -> ~ clash a b)
             rest
      /\ clash_free rest
  end.

(** ** Bookings and bills *)

(** The booking [create_booking] appends. *)
Definition new_booking (uuid guest_id room_number : string) (d1 d2 : date) :=
  Booking.mk uuid guest_id room_number d1 d2 true.

(** How many bills name the booking. *)
Definition bills_for (booking_id : string) (l : list Bill.t) : nat :=
  List.length (filter (fun bill => String.eqb (Bill.booking_id bill) booking_id) l).

(** What of a bill never changes: its ids and its amount. *)
Definition bill_key (b : Bill.t) : string * string * float :=
  (Bill.bill_id b, Bill.booking_id b, Bill.amount b).

(** [l'] is [l] with the same bills in the same places, up to status and
    payment date, and maybe more behind them. *)
Definition extends (l l' : list Bill.t) : Prop :=
  exists extra, map bill_key l' = (map bill_key l ++ extra)%list.

(** [PAID] exactly when a payment date is recorded. *)
Definition bill_settled_iff_dated (bill : Bill.t) : Prop :=
  Bill.status bill = "PAID" <-> Bill.payment_date bill <> None.

(** ** Revenue *)

(** The bill's booking is still in the store. *)
Definition booking_stored (h : HotelManager) (bill : Bill.t) : bool :=
  match find_booking h (Bill.booking_id bill) with
  | Some _ => true
  | None => false
  end.

(** The bill is [UNPAID] and the stay of its booking, check-in to check-out,
    meets [start, end]. *)
Definition unpaid_stay_within (h : HotelManager) (start end_ : date)
    (bill : Bill.t) : bool :=
  String.eqb (Bill.status bill) "UNPAID" &&
  match find_booking h (Bill.booking_id bill) with
  | Some booking =>
      (Booking.check_in booking <=? end_) && (start <=? Booking.check_out booking)
  | None => false
  end.

Definition count {A} (p : A -> bool) (l : list A) : Z :=
  Z.of_nat (List.length (filter p l)).

(** ** The rest of the manager *)

(** The price [update_room] leaves on a room. *)
Definition price_or_keep (float_of_str : string -> option float)
    (strip : string -> string) (price : option string) (old : float) : float :=
  if given strip price then
    match float_of_str (match price with Some p => p | None => "" end) with
    | Some x => x
    | None => old
    end
  else old.

(** The date [update_booking] works with for one of its two arguments: the
    argument parsed when it is not blank, the booking's own date otherwise. *)
Definition wanted_date (strptime : string -> outcome date) (strip : string -> string)
    (x : option string) (old d : date) : Prop :=
  if given strip x then exists s, x = Some s /\ strptime s = Return d
  else d = old.

(** The fixed messages of [update_booking]. *)
Definition update_booking_message (msg : string) : Prop :=
  msg = "Invalid check-in date format. Please use YYYY-MM-DD format." \/
  msg = "Invalid check-out date format. Please use YYYY-MM-DD format." \/
  msg = "Check-out date must be after check-in date.".

(** The dates of every stored booking are in order. *)
Definition dates_in_order (h : HotelManager) : Prop :=
  Forall (fun b => Booking.check_in b < Booking.check_out b) (bookings h).

(** Every stored booking names a stored room and a stored guest. *)
Definition references_resolve (h : HotelManager) : Prop :=
  Forall (fun b => In (Booking.room_number b) (map Room.number (rooms h)) /\
                   In (Booking.guest_id b) (map Guest.guest_id (guests h)))
         (bookings h).

(** The totals over the per-type dict. *)
Definition sum_total (d : list (string * (Z * Z))) : Z :=
  fold_right (fun entry s => fst (snd entry) + s) 0 d.

Definition sum_occupied (d : list (string * (Z * Z))) : Z :=
  fold_right (fun entry s => snd (snd entry) + s) 0 d.

(** [d.get(t, {"total": 0, "occupied": 0})] as the pair of its figures. *)
Definition figures_of (t : string) (d : list (string * (Z * Z))) : Z * Z :=
  match find (fun entry => String.eqb (fst entry) t) d with
  | Some entry => snd entry
  | None => (0, 0)
  end.

(** An entry of the dict with [0 <= occupied <= total] and a room in it. *)
Definition entry_sound (entry : string * (Z * Z)) : Prop :=
  0 <= snd (snd entry) <= fst (snd entry) /\ 1 <= fst (snd entry).

(** The number of stored bookings of a guest id. *)
Definition bookings_of (g : string) (l : list Booking.t) : Z :=
  count (fun b => String.eqb (Booking.guest_id b) g) l.

(** [d.get(k, 0)] *)
Definition count_of (k : string) (d : list (string * Z)) : Z :=
  match find (fun entry => String.eqb (fst entry) k) d with
  | Some entry => snd entry
  | None => 0
  end.

(** Counts from the largest down. *)
Fixpoint descending (l : list (string * Z)) : Prop :=
  match l with
  | [] => True
  | x :: rest => Forall (fun y => snd y <= snd x) rest /\ descending rest
  end.

(** * A stay, from booking to cancellation

    Room 101 at 100 a night; one guest; a booking from 2024-06-01 to
    2024-06-04, billed, paid on 2024-06-15, then cancelled. *)

(** A store with room 101 at 100 a night and one guest. *)
Definition hotel_101 : HotelManager :=
  mkHotel [Room.mk "101" "Single" 100%float false]
          [Guest.mk "g0000001" "Ada" "555-0100" "ada@example.org" "1 Main St"]
          [] [].

(** The spec's example: room 101 booked 2024-06-01 to 2024-06-05. *)
Definition booked_june : list Booking.t :=
  [Booking.mk "b0000001" "g0000001" "101" 739038 739042 true].

Definition demo_run : call -> HotelManager -> HotelManager :=
  run Calendar.strptime Calendar.float_of_str PyStr.strip.

Definition demo_reachable : HotelManager -> Prop :=
  reachable Calendar.strptime Calendar.float_of_str PyStr.strip.

Definition with_room : HotelManager :=
  demo_run (AddRoom "101" "Single" 100%float) empty_hotel.

Definition with_guest : HotelManager :=
  demo_run (AddGuest "g0000001" "Ada" "555-0100" "ada@example.org" "1 Main St")
           with_room.

Definition booked_hotel : HotelManager :=
  demo_run (CreateBooking "b0000001" "g0000001" "101" "2024-06-01" "2024-06-04")
           with_guest.

Definition twice_booked_hotel : HotelManager :=
  demo_run (CreateBooking "b0000002" "g0000001" "101" "2024-06-04" "2024-06-08")
           booked_hotel.

Definition billed_hotel : HotelManager :=
  demo_run (GenerateBill "i0000001" "b0000001") booked_hotel.

Definition paid_hotel : HotelManager :=
  demo_run (ProcessPayment 739052 "i0000001" 300%float) billed_hotel.

Definition cancelled_hotel : HotelManager :=
  demo_run (CancelBooking "b0000001") paid_hotel.

Definition june_booking : Booking.t :=
  Booking.mk "b0000001" "g0000001" "101" 739038 739041 true.

Definition june_bill : Bill.t :=
  Bill.mk "i0000001" "b0000001" 300%float "UNPAID" None.

(** * Tactics *)

(** Evaluating the monad. *)
Ltac run_m :=
  cbv beta delta [bind get ret raise try_except modify lift] in *; simpl in *.

(** Case analysis on an innermost scrutinee of the goal. *)
Ltac break_match :=
  match goal with
  | |- context [match ?x with _ => _ end] =>
      lazymatch x with
      | context [match _ with _ => _ end] => fail
      | _ => destruct x eqn:?
      end
  end.

Ltac crush_call := run_m; repeat (break_match; simpl); try reflexivity.

(** * Properties *)

(** ** Floats *)

Module PyFloatFacts.

Lemma SFcompare_le_not_gt (x y : spec_float) :
  SFleb x y = true -> SFltb y x = false.
Proof.
  unfold SFleb, SFltb.
  destruct x as [sx | sx | | sx mx ex], y as [sy | sy | | sy my ey];
    simpl; try congruence;
    try (destruct sx; simpl; congruence);
    try (destruct sy; simpl; congruence);
    try (destruct sx, sy; simpl; congruence).
  change (Pos.compare_cont Eq mx my) with (mx ?= my)%positive.
  change (Pos.compare_cont Eq my mx) with (my ?= mx)%positive.
  rewrite (Z.compare_antisym ex ey), (Pos.compare_antisym mx my).
  destruct sx, sy; simpl; try congruence;
    destruct (ex ?= ey)%Z; simpl; try congruence;
    destruct (mx ?= my)%positive; simpl; congruence.
Qed.

(** [y >= x] rules out [y < x], as IEEE 754 comparison has it. *)
Lemma ge_not_lt (x y : float) :
  PrimFloat.leb x y = true -> PrimFloat.ltb y x = false.
Proof.
  rewrite leb_spec, ltb_spec. apply SFcompare_le_not_gt.
Qed.

End PyFloatFacts.

(** ** The calendar on the dates of the examples *)

Example ordinal_2024_06_01 : Calendar.strptime "2024-06-01" = Return 739038.
Proof. reflexivity. Qed.

Example three_nights :
  match Calendar.strptime "2024-06-04", Calendar.strptime "2024-06-01" with
  | Return b, Return a => b - a = 3
  | _, _ => False
  end.
Proof. reflexivity. Qed.

Example space_padded_day : Calendar.strptime "2024-06- 4" = Return 739041.
Proof. reflexivity. Qed.

Example day_32_leaves_a_digit :
  Calendar.strptime "2024-06-32" = ValueError "unconverted data remains: 2".
Proof. reflexivity. Qed.

Example february_30 :
  Calendar.strptime "2024-02-30" = ValueError "day is out of range for month".
Proof. reflexivity. Qed.

Example strip_ascii : PyStr.strip "  Suite  " = "Suite".
Proof. reflexivity. Qed.

(** A no-break space, U+00A0, alone is blank to [str.strip()]. *)
Example strip_no_break_space :
  PyStr.strip (String (ascii_of_nat 194) (String (ascii_of_nat 160) "")) = "".
Proof. reflexivity. Qed.

Example three_nights_at_100 :
  PrimFloat.eqb (PrimFloat.mul (PyFloat.of_int 3) 100%float) 300%float = true.
Proof. reflexivity. Qed.

(** ** Availability *)

Section Availability.

Lemma excluded_iff exclude b :
  excluded exclude b = true <-> left_out exclude b.
Proof.
  unfold excluded, left_out. destruct exclude as [e|].
  - rewrite andb_true_iff, negb_true_iff, String.eqb_neq, String.eqb_eq.
    split.
    + intros [Hne Hid]. exists e. auto.
    + intros (e' & He & Hne & Hid). injection He as <-. auto.
  - split; [discriminate | intros (e & He & _); discriminate].
Qed.

Lemma overlap_test check_in check_out other :
  (check_in <? Booking.check_out other) && (check_out >? Booking.check_in other) = true
  <-> overlaps check_in check_out other.
Proof.
  unfold overlaps. rewrite andb_true_iff, Z.ltb_lt, Z.gtb_gt. tauto.
Qed.

(** The scan says yes exactly when every booking on the room is left out or
    clear of the range. *)
Lemma is_room_available_true bookings room_number check_in check_out exclude :
  is_room_available bookings room_number check_in check_out exclude = true <->
  Forall (fun b => Booking.room_number b = room_number ->
                   left_out exclude b \/ ~ overlaps check_in check_out b) bookings.
Proof.
  induction bookings as [|b rest IH]; simpl.
  - split; auto.
  - rewrite Forall_cons_iff, <- IH.
    destruct (String.eqb_spec (Booking.room_number b) room_number) as [Hr|Hr].
    + destruct (excluded exclude b) eqn:Hx.
      * apply excluded_iff in Hx. tauto.
      * assert (Hn : ~ left_out exclude b)
          by (rewrite <- excluded_iff; congruence).
        destruct ((check_in <? Booking.check_out b)
                  && (check_out >? Booking.check_in b)) eqn:Ho.
        -- apply overlap_test in Ho. split; [discriminate | tauto].
        -- assert (~ overlaps check_in check_out b)
             by (rewrite <- overlap_test; congruence).
           tauto.
    + tauto.
Qed.

Lemma is_room_available_false bookings room_number check_in check_out exclude :
  is_room_available bookings room_number check_in check_out exclude = false <->
  exists b, In b bookings /\ Booking.room_number b = room_number /\
            ~ left_out exclude b /\ overlaps check_in check_out b.
Proof.
  induction bookings as [|b rest IH]; simpl.
  - split; [discriminate | intros (b & [] & _)].
  - destruct (String.eqb_spec (Booking.room_number b) room_number) as [Hr|Hr].
    + destruct (excluded exclude b) eqn:Hx.
      * apply excluded_iff in Hx. rewrite IH. split.
        -- intros (b' & Hin & H). exists b'. tauto.
        -- intros (b' & [<-|Hin] & Hr' & Hn & Ho); [tauto|]. exists b'. tauto.
      * assert (Hn : ~ left_out exclude b)
          by (rewrite <- excluded_iff; congruence).
        destruct ((check_in <? Booking.check_out b)
                  && (check_out >? Booking.check_in b)) eqn:Ho.
        -- apply overlap_test in Ho. split; [|reflexivity].
           intros _. exists b. tauto.
        -- assert (Hno : ~ overlaps check_in check_out b)
             by (rewrite <- overlap_test; congruence).
           rewrite IH. split.
           ++ intros (b' & Hin & H). exists b'. tauto.
           ++ intros (b' & [<-|Hin] & Hr' & Hn' & Ho'); [tauto|]. exists b'. tauto.
    + rewrite IH. split.
      * intros (b' & Hin & H). exists b'. tauto.
      * intros (b' & [<-|Hin] & Hr' & Hn' & Ho'); [tauto|]. exists b'. tauto.
Qed.

(** C2. [is_room_available] is the half-open overlap scan: it answers
    [False] exactly when some stored booking on the room, other than the one
    left out through a given (non-empty) [exclude_booking_id], has
    [check_in < other.check_out] and [check_out > other.check_in]; and a
    range that starts on the check-out day of the room's booking is
    available. *)
Theorem is_room_available_half_open_scan :
  (forall bookings room_number check_in check_out exclude_booking_id,
      is_room_available bookings room_number check_in check_out
                        exclude_booking_id = false <->
      exists other, In other bookings /\
                    Booking.room_number other = room_number /\
                    ~ left_out exclude_booking_id other /\
                    check_in < Booking.check_out other /\
                    check_out > Booking.check_in other) /\
  (forall existing check_out exclude_booking_id,
      is_room_available [existing] (Booking.room_number existing)
                        (Booking.check_out existing) check_out
                        exclude_booking_id = true).
Proof.
  split.
  - intros. apply is_room_available_false.
  - intros. apply is_room_available_true. constructor; [|constructor].
    intros _. right. unfold overlaps. lia.
Qed.

Example back_to_back_available :
  is_room_available booked_june "101" 739042 739045 None = true.
Proof. reflexivity. Qed.

Example overlapping_unavailable :
  is_room_available booked_june "101" 739041 739045 None = false.
Proof. reflexivity. Qed.

(** C10. The availability answer does not depend on [is_active]: two
    booking lists that differ only in that field get the same answer, and a
    stored booking with [is_active = False] that overlaps the range blocks
    the room. *)
Theorem is_room_available_ignores_is_active
    (l1 l2 : list Booking.t) (room_number : string) (check_in check_out : date)
    (exclude_booking_id : option string)
    (Hsame : Forall2 same_but_is_active l1 l2) :
  is_room_available l1 room_number check_in check_out exclude_booking_id =
  is_room_available l2 room_number check_in check_out exclude_booking_id /\
  (forall b, In b l1 -> Booking.is_active b = false ->
             Booking.room_number b = room_number ->
             check_in < Booking.check_out b -> check_out > Booking.check_in b ->
             is_room_available l1 room_number check_in check_out None = false).
Proof.
  split.
  - induction Hsame as [|a b l1 l2 (Hid & _ & Hroom & Hin & Hout) _ IH]; simpl.
    + reflexivity.
    + unfold excluded. rewrite Hid, Hroom, Hin, Hout, IH. reflexivity.
  - intros b Hb _ Hroom Hlt Hgt. apply is_room_available_false.
    exists b. repeat split; auto.
    intros (e & He & _). discriminate.
Qed.

End Availability.

(** A booking flagged inactive still blocks its room. *)
Lemma is_room_available_ignores_is_active_witness :
  let stored := [Booking.mk "b0000001" "g0000001" "101" 739038 739042 false] in
  is_room_available stored "101" 739041 739045 None =
  is_room_available booked_june "101" 739041 739045 None /\
  is_room_available stored "101" 739041 739045 None = false.
Proof.
  intros stored.
  destruct (is_room_available_ignores_is_active stored booked_june "101"
              739041 739045 None) as [Heq Hblock].
  - repeat constructor.
  - split; [exact Heq|].
    apply (Hblock (Booking.mk "b0000001" "g0000001" "101" 739038 739042 false));
      simpl; auto; lia.
Defined.

(** ** Creating a booking *)

Section CreateBooking.

Variable strptime : string -> outcome date.

(** [create_booking], case by case. *)
Lemma create_booking_cases h uuid guest_id room_number check_in check_out :
  let r := create_booking strptime uuid guest_id room_number check_in check_out h in
  (snd r = h /\ (forall id, fst r <> Return (Some id)) /\
   (find_guest h guest_id = None \/ find_room h room_number = None \/
    (exists e, strptime check_in = ValueError e) \/
    (exists e, strptime check_out = ValueError e) \/
    (exists d1 d2, strptime check_in = Return d1 /\ strptime check_out = Return d2 /\
       (d2 <= d1 \/ is_room_available (bookings h) room_number d1 d2 None = false))))
  \/
  (exists d1 d2,
     find_guest h guest_id <> None /\ find_room h room_number <> None /\
     strptime check_in = Return d1 /\ strptime check_out = Return d2 /\
     d1 < d2 /\ is_room_available (bookings h) room_number d1 d2 None = true /\
     r = (Return (Some uuid),
          set_bookings (bookings h ++ [new_booking uuid guest_id room_number d1 d2]) h)).
Proof.
  unfold create_booking. run_m.
  destruct (find_guest h guest_id) as [guest|] eqn:Hg;
    [|left; repeat split; auto; discriminate].
  destruct (find_room h room_number) as [room|] eqn:Hr;
    [|left; repeat split; auto; discriminate].
  destruct (strptime check_in) as [d1|e1] eqn:H1;
    [|left; repeat split; [discriminate | eauto 6]].
  destruct (strptime check_out) as [d2|e2] eqn:H2;
    [|left; repeat split; [discriminate | eauto 6]].
  destruct (Z.leb_spec d2 d1) as [Hle|Hlt]; simpl.
  - left. repeat split; [discriminate|].
    do 4 right. exists d1, d2. auto.
  - destruct (is_room_available (bookings h) room_number d1 d2 None) eqn:Ha; simpl.
    + right. exists d1, d2. repeat split; auto; discriminate.
    + left. repeat split; [discriminate|].
      do 4 right. exists d1, d2. auto.
Qed.

(** C9. A [create_booking] that does not return a booking id -- guest or
    room not found, a date that does not parse, a check-out not after the
    check-in, or the room taken -- leaves rooms, guests, bookings and bills as
    they were; it returns an id exactly when none of these holds, the id is
    the new one, and the store then differs by the one booking appended. *)
Theorem create_booking_atomic_on_failure
    (h : HotelManager) (uuid guest_id room_number check_in check_out : string) :
  match create_booking strptime uuid guest_id room_number check_in check_out h with
  | (Return (Some id), h') =>
      id = uuid /\
      exists d1 d2,
        h' = set_bookings
               (bookings h ++ [new_booking uuid guest_id room_number d1 d2]) h
  | (_, h') => h' = h
  end /\
  ((exists id,
      fst (create_booking strptime uuid guest_id room_number check_in check_out h)
      = Return (Some id)) <->
   (find_guest h guest_id <> None /\ find_room h room_number <> None /\
    exists d1 d2, strptime check_in = Return d1 /\ strptime check_out = Return d2 /\
                  d1 < d2 /\
                  is_room_available (bookings h) room_number d1 d2 None = true)).
Proof.
  pose proof (create_booking_cases h uuid guest_id room_number check_in check_out)
    as Hc. cbv zeta in Hc.
  destruct (create_booking strptime uuid guest_id room_number check_in check_out h)
    as [res h'] eqn:Hrun. simpl in Hc |- *.
  destruct Hc as [(Hsame & Hfail & Hwhy) | (d1 & d2 & Hg & Hr & H1 & H2 & Hlt & Ha & Heq)].
  - split.
    + destruct res as [[id|]|msg]; auto. exfalso. apply (Hfail id). reflexivity.
    + split.
      * intros (id & Hid). exfalso. apply (Hfail id). exact Hid.
      * intros (Hg & Hr & d1 & d2 & H1 & H2 & Hlt & Ha). exfalso.
        destruct Hwhy as [Hn | [Hn | [(e & He) | [(e & He) | (a & b & Ha1 & Hb1 & Hbad)]]]];
          try congruence.
        assert (a = d1) by congruence. assert (b = d2) by congruence. subst a b.
        destruct Hbad; [lia | congruence].
  - injection Heq as -> ->. split.
    + split; [reflexivity|]. exists d1, d2. reflexivity.
    + split; [|intros _; exists uuid; reflexivity].
      intros _. repeat split; auto. exists d1, d2. auto.
Qed.

(** C6. With the guest and the room in the store and both dates parsed, a
    check-out that is not strictly after the check-in makes [create_booking]
    raise a [ValueError] carrying the invalid-range message, rather than
    return a declined result, and the store keeps its bookings. *)
Theorem create_booking_reversed_range_raises
    (h : HotelManager) (uuid guest_id room_number check_in check_out : string)
    (d1 d2 : date)
    (Hguest : find_guest h guest_id <> None)
    (Hroom : find_room h room_number <> None)
    (Hin : strptime check_in = Return d1)
    (Hout : strptime check_out = Return d2)
    (Hrange : d2 <= d1) :
  create_booking strptime uuid guest_id room_number check_in check_out h =
  (ValueError ("Invalid date format. Please use YYYY-MM-DD format. "
               ++ "Check-out date must be after check-in date."), h).
Proof.
  unfold create_booking. run_m.
  destruct (find_guest h guest_id); [|congruence].
  destruct (find_room h room_number); [|congruence].
  rewrite Hin, Hout.
  destruct (Z.leb_spec d2 d1); [reflexivity | lia].
Qed.

End CreateBooking.

Lemma create_booking_reversed_range_raises_witness :
  create_booking Calendar.strptime "b0000001" "g0000001" "101"
                 "2024-05-10" "2024-05-09" hotel_101 =
  (ValueError ("Invalid date format. Please use YYYY-MM-DD format. "
               ++ "Check-out date must be after check-in date."), hotel_101).
Proof.
  apply (create_booking_reversed_range_raises Calendar.strptime hotel_101
           "b0000001" "g0000001" "101" "2024-05-10" "2024-05-09" 739016 739015).
  - discriminate.
  - discriminate.
  - reflexivity.
  - reflexivity.
  - lia.
Defined.

(** ** In-place updates *)

Section UpdateFirst.

Context {A : Type} (p : A -> bool) (f : A -> A).

Lemma find_update_first l x :
  find p l = Some x -> p (f x) = true -> find p (update_first p f l) = Some (f x).
Proof.
  induction l as [|y rest IH]; simpl; [discriminate|].
  destruct (p y) eqn:Hy.
  - intros [= ->] Hfx. simpl. rewrite Hfx. reflexivity.
  - intros Hfind Hfx. simpl. rewrite Hy. auto.
Qed.

Lemma find_app l1 l2 :
  find p (l1 ++ l2) = match find p l1 with Some x => Some x | None => find p l2 end.
Proof.
  induction l1 as [|y rest IH]; simpl; [reflexivity|].
  destruct (p y); auto.
Qed.

Lemma map_update_first {B} (g : A -> B) l :
  (forall x, g (f x) = g x) -> map g (update_first p f l) = map g l.
Proof.
  intros Hg. induction l as [|y rest IH]; simpl; [reflexivity|].
  destruct (p y); simpl; congruence.
Qed.

End UpdateFirst.

(** ** Billing *)

Section Billing.

Lemma bills_for_app booking_id l1 l2 :
  bills_for booking_id (l1 ++ l2) = (bills_for booking_id l1 + bills_for booking_id l2)%nat.
Proof. unfold bills_for. rewrite filter_app, length_app. reflexivity. Qed.

Lemma find_none_bills_for booking_id l :
  find (fun bill => String.eqb (Bill.booking_id bill) booking_id) l = None ->
  bills_for booking_id l = 0%nat.
Proof.
  unfold bills_for. induction l as [|b rest IH]; simpl; [reflexivity|].
  destruct (String.eqb (Bill.booking_id b) booking_id); [discriminate | auto].
Qed.

Lemma find_some_bills_for booking_id l bill :
  find (fun bill => String.eqb (Bill.booking_id bill) booking_id) l = Some bill ->
  (1 <= bills_for booking_id l)%nat.
Proof.
  unfold bills_for. induction l as [|b rest IH]; simpl; [discriminate|].
  destruct (String.eqb (Bill.booking_id b) booking_id); simpl; [lia | auto].
Qed.

(** [generate_bill], case by case. *)
Lemma generate_bill_cases h uuid booking_id :
  generate_bill uuid booking_id h =
  match find_booking h booking_id with
  | None => (Return None, h)
  | Some booking =>
      match existing_bill h booking_id with
      | Some bill => (Return (Some bill), h)
      | None =>
          match find_room h (Booking.room_number booking) with
          | None => (Return None, h)
          | Some room =>
              let bill :=
                Bill.init uuid booking_id
                  (PrimFloat.mul
                     (PyFloat.of_int (Booking.check_out booking - Booking.check_in booking))
                     (Room.price room)) in
              (Return (Some bill), set_bills (bills h ++ [bill]) h)
          end
      end
  end.
Proof.
  unfold generate_bill. run_m.
  destruct (find_booking h booking_id); [|reflexivity].
  destruct (existing_bill h booking_id); [reflexivity|].
  destruct (find_room h (Booking.room_number t)); reflexivity.
Qed.

(** C3. Paying a bill found under [bill_id]: an amount below the bill's is
    refused and the store, hence the bill's [UNPAID] status and null payment
    date, stays as it is; an amount at or above it on an [UNPAID] bill is
    accepted, the bill becoming [PAID] with the current date as payment date;
    after that every further payment on that [bill_id] is refused and changes
    nothing. *)
Theorem process_payment_lifecycle
    (h : HotelManager) (today : date) (bill_id : string) (amount : float)
    (bill : Bill.t)
    (Hfind : find_bill h bill_id = Some bill) :
  (PrimFloat.ltb amount (Bill.amount bill) = true ->
   process_payment today bill_id amount h = (Return false, h)) /\
  (Bill.status bill = "UNPAID" ->
   PrimFloat.leb (Bill.amount bill) amount = true ->
   exists h' paid,
     process_payment today bill_id amount h = (Return true, h') /\
     find_bill h' bill_id = Some paid /\
     Bill.status paid = "PAID" /\
     Bill.payment_date paid = Some today /\
     Bill.amount paid = Bill.amount bill /\
     Bill.booking_id paid = Bill.booking_id bill /\
     forall today' amount',
       process_payment today' bill_id amount' h' = (Return false, h')).
Proof.
  split.
  - intros Hlt. unfold process_payment. run_m. rewrite Hfind.
    destruct (String.eqb (Bill.status bill) "PAID"); [reflexivity|].
    rewrite Hlt. reflexivity.
  - intros Hunpaid Hge.
    eexists. exists (Bill.pay today bill).
    assert (Hid : String.eqb (Bill.bill_id (Bill.pay today bill)) bill_id = true).
    { unfold find_bill in Hfind. apply find_some in Hfind. apply Hfind. }
    split; [|split].
    + unfold process_payment. run_m. rewrite Hfind, Hunpaid. simpl.
      rewrite (PyFloatFacts.ge_not_lt _ _ Hge). reflexivity.
    + unfold find_bill in *. simpl. apply find_update_first; assumption.
    + repeat split.
      intros today' amount'. unfold process_payment. run_m.
      unfold find_bill in *. simpl.
      rewrite (find_update_first (fun b => String.eqb (Bill.bill_id b) bill_id)
                 (Bill.pay today) _ _ Hfind Hid).
      reflexivity.
Qed.

End Billing.

(** ** What the calls do to the lists *)

Section Frames.

Variable strptime : string -> outcome date.
Variable float_of_str : string -> option float.
Variable strip : string -> string.

Lemma add_room_bookings n t p h : bookings (snd (add_room n t p h)) = bookings h.
Proof. unfold add_room. crush_call. Qed.
Lemma add_room_bills n t p h : bills (snd (add_room n t p h)) = bills h.
Proof. unfold add_room. crush_call. Qed.

Lemma update_room_bookings n t p h :
  bookings (snd (update_room float_of_str strip n t p h)) = bookings h.
Proof. unfold update_room. crush_call. Qed.
Lemma update_room_bills n t p h :
  bills (snd (update_room float_of_str strip n t p h)) = bills h.
Proof. unfold update_room. crush_call. Qed.

Lemma add_guest_bookings u n p e a h :
  bookings (snd (add_guest u n p e a h)) = bookings h.
Proof. reflexivity. Qed.
Lemma add_guest_bills u n p e a h : bills (snd (add_guest u n p e a h)) = bills h.
Proof. reflexivity. Qed.

Lemma update_guest_bookings g n p e a h :
  bookings (snd (update_guest strip g n p e a h)) = bookings h.
Proof. unfold update_guest. crush_call. Qed.
Lemma update_guest_bills g n p e a h :
  bills (snd (update_guest strip g n p e a h)) = bills h.
Proof. unfold update_guest. crush_call. Qed.

Lemma create_booking_bills u g r ci co h :
  bills (snd (create_booking strptime u g r ci co h)) = bills h.
Proof. unfold create_booking. crush_call. Qed.

Lemma update_booking_bills b ci co h :
  bills (snd (update_booking strptime strip b ci co h)) = bills h.
Proof. unfold update_booking. crush_call. Qed.

Lemma cancel_booking_bills b h : bills (snd (cancel_booking b h)) = bills h.
Proof. unfold cancel_booking. crush_call. Qed.

Lemma generate_bill_bookings u b h :
  bookings (snd (generate_bill u b h)) = bookings h.
Proof. rewrite generate_bill_cases. repeat (break_match; simpl); reflexivity. Qed.

Lemma process_payment_bookings t b a h :
  bookings (snd (process_payment t b a h)) = bookings h.
Proof. unfold process_payment. crush_call. Qed.

Lemma extends_refl l : extends l l.
Proof. exists []. rewrite app_nil_r. reflexivity. Qed.

Lemma extends_trans l1 l2 l3 : extends l1 l2 -> extends l2 l3 -> extends l1 l3.
Proof.
  intros [e1 H1] [e2 H2]. exists (e1 ++ e2)%list. rewrite H2, H1, app_assoc. reflexivity.
Qed.

Lemma extends_nth l l' i bill :
  extends l l' -> nth_error l i = Some bill ->
  exists bill', nth_error l' i = Some bill' /\ bill_key bill' = bill_key bill.
Proof.
  intros [extra He] Hi.
  assert (Hk : nth_error (map bill_key l') i = Some (bill_key bill)).
  { rewrite He, nth_error_app1.
    - rewrite nth_error_map, Hi. reflexivity.
    - rewrite length_map. apply nth_error_Some. congruence. }
  rewrite nth_error_map in Hk.
  destruct (nth_error l' i) as [bill'|]; [|discriminate].
  exists bill'. split; [reflexivity|]. simpl in Hk. congruence.
Qed.

Lemma run_extends_bills c h :
  extends (bills h) (bills (run strptime float_of_str strip c h)).
Proof.
  destruct c; simpl;
    rewrite ?add_room_bills, ?update_room_bills, ?add_guest_bills,
      ?update_guest_bills, ?create_booking_bills, ?update_booking_bills,
      ?cancel_booking_bills;
    try apply extends_refl.
  - rewrite generate_bill_cases.
    repeat (break_match; simpl); try apply extends_refl.
    eexists. rewrite map_app. reflexivity.
  - unfold process_payment. run_m.
    repeat (break_match; simpl); try apply extends_refl.
    exists []. rewrite app_nil_r. apply map_update_first. reflexivity.
Qed.

Lemma run_all_extends_bills cs h :
  extends (bills h) (bills (run_all strptime float_of_str strip cs h)).
Proof.
  revert h. induction cs as [|c cs IH]; intros h; simpl.
  - apply extends_refl.
  - eapply extends_trans; [apply run_extends_bills | apply IH].
Qed.

(** C4. For a stored booking without a bill whose room is in the store,
    [generate_bill] appends an [UNPAID] bill whose amount is the number of days
    from check-in to check-out times the room's price of that moment; and
    whatever calls follow, each bill stays at its place with its amount (and
    ids); a call of [update_room], price change or not, leaves the bills
    untouched. *)
Theorem generate_bill_amount_frozen :
  (forall h uuid booking_id booking room,
      find_booking h booking_id = Some booking ->
      existing_bill h booking_id = None ->
      find_room h (Booking.room_number booking) = Some room ->
      exists bill,
        generate_bill uuid booking_id h
        = (Return (Some bill), set_bills (bills h ++ [bill]) h) /\
        Bill.amount bill
        = PrimFloat.mul
            (PyFloat.of_int (Booking.check_out booking - Booking.check_in booking))
            (Room.price room) /\
        Bill.booking_id bill = booking_id /\
        Bill.status bill = "UNPAID" /\ Bill.payment_date bill = None) /\
  (forall h calls i bill,
      nth_error (bills h) i = Some bill ->
      exists bill',
        nth_error (bills (run_all strptime float_of_str strip calls h)) i = Some bill' /\
        Bill.amount bill' = Bill.amount bill /\
        Bill.bill_id bill' = Bill.bill_id bill /\
        Bill.booking_id bill' = Bill.booking_id bill) /\
  (forall h room_number room_type price,
      bills (snd (update_room float_of_str strip room_number room_type price h)) = bills h).
Proof.
  split; [|split].
  - intros h uuid booking_id booking room Hb He Hr.
    rewrite generate_bill_cases, Hb, He, Hr. cbv zeta.
    eexists. split; [reflexivity|]. repeat split.
  - intros h calls i bill Hi.
    destruct (extends_nth _ _ i bill (run_all_extends_bills calls h) Hi)
      as (bill' & Hn & Hk).
    exists bill'. unfold bill_key in Hk. injection Hk as H1 H2 H3. auto.
  - intros. apply update_room_bills.
Qed.

End Frames.

(** ** Revenue *)

Section Revenue.

Variable strptime : string -> outcome date.

Lemma count_cons {A} (p : A -> bool) x l :
  count p (x :: l) = (if p x then 1 else 0) + count p l.
Proof.
  unfold count. simpl. destruct (p x); simpl List.length; lia.
Qed.

(** The loop over the bills, from any running figures. *)
Lemma revenue_loop h start end_ l acc :
  let r := fold_left (revenue_step h start end_) l acc in
  total_revenue r
  = fold_left PrimFloat.add
      (map Bill.amount
           (filter (fun b => booking_stored h b && paid_within start end_ b) l))
      (total_revenue acc) /\
  paid_bills r
  = paid_bills acc
    + count (fun b => booking_stored h b && paid_within start end_ b) l /\
  unpaid_bills r = unpaid_bills acc + count (unpaid_stay_within h start end_) l.
Proof.
  revert acc. induction l as [|bill l IH]; intros acc; cbv zeta.
  - unfold count. simpl. repeat split; lia.
  - change (fold_left (revenue_step h start end_) (bill :: l) acc)
      with (fold_left (revenue_step h start end_) l
              (revenue_step h start end_ acc bill)).
    rewrite !count_cons.
    destruct (IH (revenue_step h start end_ acc bill)) as (Ht & Hp & Hu).
    rewrite Ht, Hp, Hu. clear IH Ht Hp Hu.
    unfold revenue_step, booking_stored, unpaid_stay_within. simpl filter.
    destruct (find_booking h (Bill.booking_id bill)) as [booking|];
      cbn -[Z.add count].
    + rewrite Z.geb_leb.
      destruct (paid_within start end_ bill) eqn:Hpaid; cbn -[Z.add count];
        destruct (String.eqb (Bill.status bill) "UNPAID"); cbn -[Z.add count];
        destruct (Booking.check_in booking <=? end_); cbn -[Z.add count];
        destruct (start <=? Booking.check_out booking); cbn -[Z.add count];
        repeat split; lia.
    + rewrite andb_false_r. repeat split; lia.
Qed.

(** C7, as the code has it. For a range that parses with [end >= start], the
    report's total is the sum, in list order, of the amounts of the bills
    whose booking is still in the store, whose status is [PAID] and whose
    payment date lies in [start, end]; its unpaid count is the number of
    [UNPAID] bills whose booking is in the store with a stay meeting
    [start, end]. The report changes nothing. *)
Theorem revenue_report_totals
    (h : HotelManager) (start_date end_date : string) (start end_ : date)
    (Hstart : strptime start_date = Return start)
    (Hend : strptime end_date = Return end_)
    (Hrange : start <= end_) :
  exists r,
    generate_revenue_report strptime start_date end_date h = (Return r, h) /\
    total_revenue r
    = PyFloat.sum
        (map Bill.amount
             (filter (fun b => booking_stored h b && paid_within start end_ b)
                     (bills h))) /\
    unpaid_bills r = count (unpaid_stay_within h start end_) (bills h).
Proof.
  unfold generate_revenue_report. run_m. rewrite Hstart, Hend.
  destruct (Z.ltb_spec end_ start) as [Hlt|_]; [lia|]. simpl.
  eexists. split; [reflexivity|].
  destruct (revenue_loop h start end_ (bills h) (mkRevenue PrimFloat.zero 0 0 []))
    as (Ht & _ & Hu).
  split; [exact Ht | rewrite Hu; simpl; lia].
Qed.

End Revenue.

(** ** No double booking *)

Section NoDoubleBooking.

Variable strptime : string -> outcome date.
Variable float_of_str : string -> option float.
Variable strip : string -> string.

Lemma clash_sym a b : clash a b -> clash b a.
Proof. unfold clash. intros (Hr & H1 & H2). repeat split; [congruence | lia | lia]. Qed.

Lemma clash_free_no_double_booking l : clash_free l -> no_double_booking l.
Proof.
  induction l as [|x rest IH]; intros Hfree i j a b Hi Hj Hne.
  - destruct i; discriminate.
  - destruct Hfree as [Hx Hrest]. rewrite Forall_forall in Hx.
    destruct i as [|i], j as [|j]; simpl in Hi, Hj.
    + congruence.
    + injection Hi as <-. apply Hx; [|assumption]. eapply nth_error_In; eauto.
    + injection Hj as <-. intros Hc. apply clash_sym in Hc. revert Hc.
      apply Hx; [|congruence]. eapply nth_error_In; eauto.
    + apply (IH Hrest i j); auto.
Qed.

Lemma clash_free_app l x :
  clash_free l -> Forall (fun b => ~ clash b x) l -> clash_free (l ++ [x]).
Proof.
  induction l as [|a rest IH]; simpl; intros Hfree Hx.
  - split; constructor.
  - destruct Hfree as [Ha Hrest]. inversion Hx; subst.
    split; [|auto].
    apply Forall_app. split; [assumption|]. constructor; [auto | constructor].
Qed.

Lemma clash_free_filter p l : clash_free l -> clash_free (filter p l).
Proof.
  induction l as [|a rest IH]; simpl; [auto|].
  intros [Ha Hrest]. destruct (p a); simpl; [|auto].
  split; [|auto]. rewrite Forall_forall in *.
  intros b Hb. apply Ha. apply filter_In in Hb. tauto.
Qed.

Lemma Forall_update_found {A} (p : A -> bool) (f : A -> A) (P : A -> Prop) l x :
  Forall P l -> find p l = Some x -> P (f x) -> Forall P (update_first p f l).
Proof.
  induction l as [|y rest IH]; simpl; intros Hall Hfind Hfx; [constructor|].
  inversion Hall; subst.
  destruct (p y); [injection Hfind as ->|]; constructor; auto.
Qed.

(** Re-dating the first booking of an id keeps the list free of clashes
    between ids when the new dates clear every booking of another id. *)
Lemma clash_free_update l booking_id (f : Booking.t -> Booking.t) x :
  let p := fun b => String.eqb (Booking.booking_id b) booking_id in
  find p l = Some x ->
  Booking.booking_id (f x) = booking_id ->
  clash_free l ->
  (forall b, In b l -> Booking.booking_id b <> booking_id -> ~ clash (f x) b) ->
  clash_free (update_first p f l).
Proof.
  intros p. induction l as [|a rest IH]; simpl; intros Hfind Hkeep Hfree Hf;
    [discriminate|].
  destruct Hfree as [Ha Hrest].
  unfold p in Hfind |- *.
  destruct (String.eqb_spec (Booking.booking_id a) booking_id) as [Hid|Hid].
  - injection Hfind as ->. simpl. split; [|assumption].
    rewrite Forall_forall. intros b Hb Hne. apply Hf; [auto|]. congruence.
  - simpl. split.
    + apply Forall_update_found with (x := x); auto.
      intros _ Hc. apply clash_sym in Hc. revert Hc. apply Hf; auto.
    + apply IH; auto.
Qed.

Lemma NoDup_map_filter {A B} (g : A -> B) (p : A -> bool) l :
  NoDup (map g l) -> NoDup (map g (filter p l)).
Proof.
  induction l as [|a rest IH]; simpl; [auto|].
  intros Hnd. inversion Hnd as [|? ? Hnotin Hnd']; subst.
  destruct (p a); simpl; [|auto].
  constructor; [|auto].
  intros Hin. apply Hnotin. apply in_map_iff in Hin.
  destruct Hin as (y & Hy & Hin). apply filter_In in Hin.
  rewrite <- Hy. apply in_map. tauto.
Qed.

(** [update_booking], case by case. *)
Lemma update_booking_cases h booking_id check_in check_out :
  snd (update_booking strptime strip booking_id check_in check_out h) = h \/
  exists booking d1 d2,
    find_booking h booking_id = Some booking /\ d1 < d2 /\
    is_room_available (bookings h) (Booking.room_number booking) d1 d2
                      (Some booking_id) = true /\
    update_booking strptime strip booking_id check_in check_out h =
    (Return true,
     set_bookings
       (update_first (fun b => String.eqb (Booking.booking_id b) booking_id)
                     (Booking.set_dates d1 d2) (bookings h)) h).
Proof.
  unfold update_booking. run_m.
  destruct (find_booking h booking_id) as [booking|] eqn:Hb; [|left; reflexivity].
  destruct (given strip check_in); simpl;
    [destruct (strptime _) as [d1|e1]; simpl; [|left; reflexivity]|];
    (destruct (given strip check_out); simpl;
     [destruct (strptime _) as [d2|e2]; simpl; [|left; reflexivity]|]);
    match goal with
    | |- context [is_room_available _ _ ?a ?b _] =>
        destruct (Z.leb_spec b a); simpl; [left; reflexivity|];
        destruct (is_room_available (bookings h) (Booking.room_number booking)
                    a b (Some booking_id)) eqn:Ha; simpl;
        [right; exists booking, a, b; auto | left; reflexivity]
    end.
Qed.

Lemma run_bookings_sound c h :
  clash_free (bookings h) ->
  clash_free (bookings (run strptime float_of_str strip c h)).
Proof.
  intros Hfree.
  destruct c; simpl;
    rewrite ?add_room_bookings, ?update_room_bookings, ?add_guest_bookings,
      ?update_guest_bookings, ?generate_bill_bookings, ?process_payment_bookings;
    auto.
  - (* create_booking *)
    destruct (create_booking_cases strptime h uuid guest_id room_number
                check_in check_out)
      as [(Hsame & _) | (d1 & d2 & _ & _ & _ & _ & _ & Ha & Heq)].
    + rewrite Hsame. auto.
    + rewrite Heq. simpl.
      apply clash_free_app; [assumption|].
      apply is_room_available_true in Ha.
      rewrite Forall_forall in *. intros b Hb (Hr & H1 & H2).
      destruct (Ha b Hb Hr) as [(e & He & _) | Hno]; [discriminate|].
      apply Hno. unfold overlaps. simpl in *. lia.
  - (* update_booking *)
    destruct (update_booking_cases h booking_id check_in check_out)
      as [Hsame | (booking & d1 & d2 & Hb & _ & Ha & Heq)].
    + rewrite Hsame. auto.
    + rewrite Heq. simpl.
      apply clash_free_update with (x := booking); auto.
      * unfold find_booking in Hb. apply find_some in Hb.
        simpl. apply String.eqb_eq, Hb.
      * apply is_room_available_true in Ha. rewrite Forall_forall in Ha.
        intros b Hin Hid (Hr & H1 & H2). simpl in Hr, H1, H2.
        destruct (Ha b Hin (eq_sym Hr)) as [(e & He & _ & Hbe) | Hno].
        -- injection He as <-. congruence.
        -- apply Hno. unfold overlaps. lia.
  - (* cancel_booking *)
    unfold cancel_booking. run_m.
    destruct (find_booking h booking_id); simpl; auto.
    apply clash_free_filter. assumption.
Qed.

Lemma reachable_bookings_sound h :
  reachable strptime float_of_str strip h -> clash_free (bookings h).
Proof.
  induction 1 as [|h c _ IH]; [exact I | apply run_bookings_sound; assumption].
Qed.


End NoDoubleBooking.

(** ** Status and payment date *)

Section BillStatus.

Variable strptime : string -> outcome date.
Variable float_of_str : string -> option float.
Variable strip : string -> string.

Lemma nth_error_update_first {A} (p : A -> bool) (f : A -> A) l i x :
  nth_error l i = Some x ->
  nth_error (update_first p f l) i = Some x \/
  (find p l = Some x /\ nth_error (update_first p f l) i = Some (f x)).
Proof.
  revert i. induction l as [|y rest IH]; intros i Hi; [destruct i; discriminate|].
  simpl. destruct (p y) eqn:Hy.
  - destruct i; simpl in *; [|auto]. injection Hi as <-. auto.
  - destruct i; simpl in *; [auto|]. apply IH. assumption.
Qed.

Lemma run_bills_sound c h :
  Forall bill_settled_iff_dated (bills h) ->
  Forall bill_settled_iff_dated (bills (run strptime float_of_str strip c h)).
Proof.
  intros Hall.
  destruct c; simpl;
    rewrite ?add_room_bills, ?update_room_bills, ?add_guest_bills,
      ?update_guest_bills, ?create_booking_bills, ?update_booking_bills,
      ?cancel_booking_bills;
    auto.
  - rewrite generate_bill_cases.
    repeat (break_match; simpl); auto.
    apply Forall_app. split; [assumption|].
    repeat constructor; simpl; [discriminate | congruence].
  - unfold process_payment. run_m.
    repeat (break_match; simpl); auto.
    match goal with H : find_bill _ _ = Some _ |- _ => unfold find_bill in H end.
    eapply Forall_update_found; eauto.
    split; simpl; [discriminate | reflexivity].
Qed.

Lemma reachable_bills_sound h :
  reachable strptime float_of_str strip h -> Forall bill_settled_iff_dated (bills h).
Proof.
  induction 1 as [|h c _ IH]; [constructor | apply run_bills_sound; assumption].
Qed.

(** C8. In every store reached from the empty one by calls of the manager's
    methods, each bill has status [PAID] exactly when its payment date is not
    null; and a payment date, once recorded on a bill, is still that bill's
    payment date after any further call, the bill being [PAID]. *)
Theorem bill_paid_iff_payment_date (h : HotelManager)
    (Hreach : reachable strptime float_of_str strip h) :
  Forall (fun bill => Bill.status bill = "PAID" <-> Bill.payment_date bill <> None)
         (bills h) /\
  (forall c i bill d,
      nth_error (bills h) i = Some bill ->
      Bill.payment_date bill = Some d ->
      exists bill',
        nth_error (bills (run strptime float_of_str strip c h)) i = Some bill' /\
        Bill.payment_date bill' = Some d /\ Bill.status bill' = "PAID").
Proof.
  pose proof (reachable_bills_sound h Hreach) as Hall.
  split; [exact Hall|].
  intros c i bill d Hi Hd.
  assert (Hpaid : Bill.status bill = "PAID").
  { rewrite Forall_forall in Hall. apply (Hall bill).
    - eapply nth_error_In; eauto.
    - congruence. }
  assert (Hkeep : forall h', bills h' = bills h ->
            exists bill', nth_error (bills h') i = Some bill' /\
                          Bill.payment_date bill' = Some d /\
                          Bill.status bill' = "PAID").
  { intros h' ->. exists bill. auto. }
  destruct c; simpl;
    try exact (Hkeep h eq_refl);
    try (apply Hkeep;
         first [ apply add_room_bills | apply update_room_bills
               | apply update_guest_bills
               | apply create_booking_bills | apply update_booking_bills
               | apply cancel_booking_bills ]).
  - rewrite generate_bill_cases.
    repeat (break_match; simpl); try (apply Hkeep; reflexivity).
    exists bill. rewrite nth_error_app1; [auto|]. apply nth_error_Some. congruence.
  - unfold process_payment. run_m.
    repeat (break_match; simpl); try (apply Hkeep; reflexivity).
    destruct (nth_error_update_first
                (fun b => String.eqb (Bill.bill_id b) bill_id) (Bill.pay today)
                _ _ _ Hi) as [Hsame | [Hfound _]].
    + exists bill. auto.
    + match goal with
      | H : find_bill _ _ = Some ?t, E : String.eqb (Bill.status ?t) _ = false |- _ =>
          unfold find_bill in H; rewrite Hfound in H; injection H as <-;
          rewrite Hpaid in E; discriminate
      end.
Qed.

End BillStatus.

(** ** The stay *)

Example booked_hotel_bookings : bookings booked_hotel = [june_booking].
Proof. reflexivity. Qed.


Example overlapping_booking_declined :
  create_booking Calendar.strptime "b0000003" "g0000001" "101"
                 "2024-06-03" "2024-06-05" booked_hotel
  = (Return None, booked_hotel).
Proof. reflexivity. Qed.

Example billed_hotel_bills : bills billed_hotel = [june_bill].
Proof. reflexivity. Qed.

Example paid_hotel_bills :
  bills paid_hotel = [Bill.mk "i0000001" "b0000001" 300%float "PAID" (Some 739052)].
Proof. reflexivity. Qed.

Example cancelled_hotel_lists :
  bookings cancelled_hotel = [] /\ bills cancelled_hotel = bills paid_hotel.
Proof. split; reflexivity. Qed.

Lemma booked_hotel_reachable : demo_reachable booked_hotel.
Proof.
  unfold demo_reachable, booked_hotel, with_guest, with_room, demo_run.
  repeat apply reach_call. apply reach_empty.
Qed.

Lemma twice_booked_hotel_reachable : demo_reachable twice_booked_hotel.
Proof.
  unfold twice_booked_hotel, demo_run. apply reach_call.
  apply booked_hotel_reachable.
Qed.

Lemma cancelled_hotel_reachable : demo_reachable cancelled_hotel.
Proof.
  unfold cancelled_hotel, paid_hotel, billed_hotel, demo_run.
  repeat apply reach_call. apply reach_empty.
Qed.

Lemma paid_hotel_reachable : demo_reachable paid_hotel.
Proof.
  unfold paid_hotel, billed_hotel, demo_run.
  repeat apply reach_call. apply reach_empty.
Qed.

(** ** The theorems on the stay *)



(** The paid bill of the stay: [PAID] with its date, and a later payment
    attempt leaves both. *)
Lemma bill_paid_iff_payment_date_witness :
  Forall (fun bill => Bill.status bill = "PAID" <-> Bill.payment_date bill <> None)
         (bills paid_hotel) /\
  exists bill',
    nth_error (bills (demo_run (ProcessPayment 739068 "i0000001" 300%float)
                               paid_hotel)) 0 = Some bill' /\
    Bill.payment_date bill' = Some 739052 /\ Bill.status bill' = "PAID".
Proof.
  destruct (bill_paid_iff_payment_date Calendar.strptime Calendar.float_of_str PyStr.strip
              paid_hotel paid_hotel_reachable) as [Hall Hkeep].
  split; [exact Hall|].
  apply (Hkeep (ProcessPayment 739068 "i0000001" 300%float) 0%nat
               (Bill.mk "i0000001" "b0000001" 300%float "PAID" (Some 739052))
               739052); reflexivity.
Defined.

(** 250 does not settle the bill of 300; 300 does, dated 2024-06-15; nothing
    settles it again. *)
Lemma process_payment_lifecycle_witness :
  process_payment 739052 "i0000001" 250%float billed_hotel
  = (Return false, billed_hotel) /\
  exists h' paid,
    process_payment 739052 "i0000001" 300%float billed_hotel = (Return true, h') /\
    find_bill h' "i0000001" = Some paid /\
    Bill.status paid = "PAID" /\
    Bill.payment_date paid = Some 739052 /\
    Bill.amount paid = 300%float /\
    Bill.booking_id paid = "b0000001" /\
    forall today' amount',
      process_payment today' "i0000001" amount' h' = (Return false, h').
Proof.
  split.
  - apply (process_payment_lifecycle billed_hotel 739052 "i0000001" 250%float
             june_bill); reflexivity.
  - apply (process_payment_lifecycle billed_hotel 739052 "i0000001" 300%float
             june_bill); reflexivity.
Defined.

(** Three nights at 100 are billed 300, and stay 300 when the room goes to
    250 a night. *)
Lemma generate_bill_amount_frozen_witness :
  (exists bill,
      generate_bill "i0000001" "b0000001" booked_hotel
      = (Return (Some bill), set_bills (bills booked_hotel ++ [bill]) booked_hotel) /\
      Bill.amount bill = 300%float /\
      Bill.booking_id bill = "b0000001" /\
      Bill.status bill = "UNPAID" /\ Bill.payment_date bill = None) /\
  (exists bill',
      nth_error
        (bills (run_all Calendar.strptime Calendar.float_of_str PyStr.strip
                  [UpdateRoom "101" None (Some "250")] billed_hotel)) 0
      = Some bill' /\
      Bill.amount bill' = 300%float /\
      Bill.bill_id bill' = "i0000001" /\
      Bill.booking_id bill' = "b0000001") /\
  option_map Room.price
    (find_room (demo_run (UpdateRoom "101" None (Some "250")) billed_hotel) "101")
  = Some 250%float.
Proof.
  destruct (generate_bill_amount_frozen Calendar.strptime Calendar.float_of_str PyStr.strip)
    as (Hnew & Hkeep & _).
  split; [|split].
  - apply (Hnew booked_hotel "i0000001" "b0000001" june_booking
                (Room.mk "101" "Single" 100%float false)); reflexivity.
  - apply (Hkeep billed_hotel [UpdateRoom "101" None (Some "250")] 0%nat june_bill).
    reflexivity.
  - reflexivity.
Defined.

(** C5, as stated, fails once the booking is cancelled: the store, reached by
    the manager's calls, still holds the booking's bill, and [generate_bill]
    returns [None]. *)
Lemma generate_bill_after_cancel_counterexample :
  demo_reachable cancelled_hotel /\
  existing_bill cancelled_hotel "b0000001"
  = Some (Bill.mk "i0000001" "b0000001" 300%float "PAID" (Some 739052)) /\
  generate_bill "i0000002" "b0000001" cancelled_hotel
  = (Return None, cancelled_hotel).
Proof.
  split; [exact cancelled_hotel_reachable|]. split; reflexivity.
Qed.

(** June's report on the paid stay: 300. *)
Lemma revenue_report_totals_witness :
  exists r,
    generate_revenue_report Calendar.strptime "2024-06-01" "2024-06-30" paid_hotel
    = (Return r, paid_hotel) /\
    total_revenue r
    = PyFloat.sum
        (map Bill.amount
             (filter (fun b => booking_stored paid_hotel b
                               && paid_within 739038 739067 b)
                     (bills paid_hotel))) /\
    unpaid_bills r = count (unpaid_stay_within paid_hotel 739038 739067)
                           (bills paid_hotel).
Proof.
  apply (revenue_report_totals Calendar.strptime paid_hotel
           "2024-06-01" "2024-06-30" 739038 739067).
  - reflexivity.
  - reflexivity.
  - lia.
Defined.

Example june_revenue_paid_stay :
  fst (generate_revenue_report Calendar.strptime "2024-06-01" "2024-06-30" paid_hotel)
  = Return (mkRevenue 300%float 1 0 [("Single", 300%float)]).
Proof. reflexivity. Qed.

Example may_revenue_paid_stay :
  fst (generate_revenue_report Calendar.strptime "2024-05-01" "2024-05-31" paid_hotel)
  = Return (mkRevenue 0%float 0 0 []).
Proof. reflexivity. Qed.

(** C7, as stated, fails once the booking is cancelled: the bill is [PAID]
    with a payment date in June, so the sum over such bills is 300, and the
    report's total is 0. *)
Lemma revenue_after_cancel_counterexample :
  fst (generate_revenue_report Calendar.strptime "2024-06-01" "2024-06-30"
         cancelled_hotel)
  = Return (mkRevenue 0%float 0 0 []) /\
  PyFloat.sum (map Bill.amount
                   (filter (paid_within 739038 739067) (bills cancelled_hotel)))
  = 300%float /\
  PrimFloat.eqb 0%float 300%float = false.
Proof.
  repeat split; reflexivity.
Qed.

(** * More of the manager *)

(** ** Lookups and in-place updates, once more *)

Section Lookups.

Context {A : Type} (p : A -> bool).

Lemma find_not_none_existsb l : find p l <> None <-> existsb p l = true.
Proof.
  induction l as [|x rest IH]; simpl.
  - split; [congruence | discriminate].
  - destruct (p x); simpl; [split; [reflexivity | discriminate] | exact IH].
Qed.

Lemma find_none_existsb l : find p l = None <-> existsb p l = false.
Proof.
  induction l as [|x rest IH]; simpl.
  - split; reflexivity.
  - destruct (p x); simpl; [split; discriminate | exact IH].
Qed.

Lemma existsb_update_first (q : A -> bool) (f : A -> A) l :
  (forall x, p (f x) = p x) -> existsb p (update_first q f l) = existsb p l.
Proof.
  intros Hp. induction l as [|x rest IH]; simpl; [reflexivity|].
  destruct (q x); simpl; rewrite ?Hp, ?IH; reflexivity.
Qed.

Lemma length_update_first (q : A -> bool) (f : A -> A) l :
  List.length (update_first q f l) = List.length l.
Proof.
  induction l as [|x rest IH]; simpl; [reflexivity|].
  destruct (q x); simpl; congruence.
Qed.

Lemma update_first_id (q : A -> bool) (f : A -> A) l :
  (forall x, In x l -> q x = true -> f x = x) -> update_first q f l = l.
Proof.
  induction l as [|x rest IH]; simpl; intros Hf; [reflexivity|].
  destruct (q x) eqn:Hq.
  - rewrite Hf; auto.
  - rewrite IH; auto.
Qed.

End Lookups.

Lemma find_room_in h n :
  find_room h n <> None <-> In n (map Room.number (rooms h)).
Proof.
  unfold find_room. rewrite find_not_none_existsb, existsb_exists, in_map_iff.
  split; intros (r & H1 & H2).
  - apply String.eqb_eq in H2. eauto.
  - exists r. rewrite String.eqb_eq. auto.
Qed.

Lemma find_guest_in h g :
  find_guest h g <> None <-> In g (map Guest.guest_id (guests h)).
Proof.
  unfold find_guest. rewrite find_not_none_existsb, existsb_exists, in_map_iff.
  split; intros (r & H1 & H2).
  - apply String.eqb_eq in H2. eauto.
  - exists r. rewrite String.eqb_eq. auto.
Qed.

Lemma find_booking_in h b :
  find_booking h b <> None <-> In b (map Booking.booking_id (bookings h)).
Proof.
  unfold find_booking. rewrite find_not_none_existsb, existsb_exists, in_map_iff.
  split; intros (r & H1 & H2).
  - apply String.eqb_eq in H2. eauto.
  - exists r. rewrite String.eqb_eq. auto.
Qed.

(** ** Rooms *)

Section Rooms.

Variable strptime : string -> outcome date.
Variable float_of_str : string -> option float.
Variable strip : string -> string.

(** [add_room], case by case. *)
Lemma add_room_cases h n t p :
  add_room n t p h =
  match find_room h n with
  | Some _ => (Return false, h)
  | None => (Return true, set_rooms (rooms h ++ [Room.mk n t p false]) h)
  end.
Proof. unfold add_room. run_m. destruct (find_room h n); reflexivity. Qed.

(** X1. [add_room] refuses a number that is taken and changes nothing;
    otherwise it appends the room, unoccupied, after which [find_room] gives
    that room for the number and what it gave before for any other. *)
Theorem add_room_then_find (h : HotelManager) (n t : string) (p : float) :
  (find_room h n <> None -> add_room n t p h = (Return false, h)) /\
  (find_room h n = None ->
   exists h',
     add_room n t p h = (Return true, h') /\
     rooms h' = (rooms h ++ [Room.mk n t p false])%list /\
     find_room h' n = Some (Room.mk n t p false) /\
     (forall m, m <> n -> find_room h' m = find_room h m) /\
     guests h' = guests h /\ bookings h' = bookings h /\ bills h' = bills h).
Proof.
  rewrite add_room_cases. split.
  - destruct (find_room h n); [reflexivity | congruence].
  - intros Hnone. rewrite Hnone. eexists. split; [reflexivity|].
    unfold find_room in *. simpl. split; [reflexivity|]. split; [|split; [|auto]].
    + rewrite find_app, Hnone. simpl. rewrite String.eqb_refl. reflexivity.
    + intros m Hm. rewrite find_app.
      destruct (find (fun room => String.eqb (Room.number room) m) (rooms h));
        [reflexivity|].
      simpl. destruct (String.eqb_spec n m); [congruence | reflexivity].
Qed.

(** The room numbers after a call: as before, or with one number more that
    was not there. *)
Lemma run_room_numbers c h :
  map Room.number (rooms (run strptime float_of_str strip c h)) = map Room.number (rooms h) \/
  exists n, ~ In n (map Room.number (rooms h)) /\
            map Room.number (rooms (run strptime float_of_str strip c h))
            = (map Room.number (rooms h) ++ [n])%list.
Proof.
  destruct c; simpl.
  - rewrite add_room_cases. destruct (find_room h room_number) eqn:Hf; simpl.
    + left. reflexivity.
    + right. exists room_number. split.
      * rewrite <- find_room_in. congruence.
      * rewrite map_app. reflexivity.
  - left. unfold update_room. run_m.
    repeat (break_match; simpl); rewrite ?map_update_first; reflexivity.
  - left. reflexivity.
  - left. f_equal. unfold update_guest. crush_call.
  - left. f_equal. unfold create_booking. crush_call.
  - left. f_equal. unfold update_booking. crush_call.
  - left. f_equal. unfold cancel_booking. crush_call.
  - left. f_equal. rewrite generate_bill_cases.
    repeat (break_match; simpl); reflexivity.
  - left. f_equal. unfold process_payment. crush_call.
Qed.

Lemma reachable_room_numbers h :
  reachable strptime float_of_str strip h -> NoDup (map Room.number (rooms h)).
Proof.
  induction 1 as [|h c _ IH]; [constructor|].
  destruct (run_room_numbers c h) as [-> | (n & Hn & ->)]; [assumption|].
  apply NoDup_app; [assumption | repeat constructor; intros [] |].
  intros x Hx [<-|[]]. auto.
Qed.

(** X2. In every store reached from the empty one by the manager's calls no
    two rooms have the same number, so [find_room] gives the one room of a
    number: any stored room is what [find_room] gives for its number. *)
Theorem room_numbers_unique (h : HotelManager)
    (Hreach : reachable strptime float_of_str strip h) :
  NoDup (map Room.number (rooms h)) /\
  (forall room, In room (rooms h) -> find_room h (Room.number room) = Some room).
Proof.
  pose proof (reachable_room_numbers h Hreach) as Hnd. split; [assumption|].
  unfold find_room. induction (rooms h) as [|r rest IH]; simpl; [intros _ []|].
  inversion Hnd as [|? ? Hnotin Hnd']; subst.
  intros room [<-|Hin].
  - rewrite String.eqb_refl. reflexivity.
  - destruct (String.eqb_spec (Room.number r) (Room.number room)) as [Heq|_].
    + exfalso. apply Hnotin. rewrite Heq. apply in_map. assumption.
    + auto.
Qed.

End Rooms.

Lemma find_update_first_twice {A} (p : A -> bool) (f1 f2 : A -> A) l x :
  find p l = Some x -> p (f1 x) = true -> p (f2 (f1 x)) = true ->
  find p (update_first p f2 (update_first p f1 l)) = Some (f2 (f1 x)).
Proof.
  intros Hfind H1 H2. apply find_update_first; [|exact H2].
  apply find_update_first; assumption.
Qed.

Section RoomUpdate.

Variable float_of_str : string -> option float.
Variable strip : string -> string.

(** X3. [update_room] on a number that is not stored returns [False] and
    changes nothing. On a stored one it returns [True] whatever the inputs:
    the first room of that number keeps its number and occupancy flag, takes
    the new type unless it is blank, and takes the new price unless it is
    blank or not a number (a bad price is dropped, the type change stays);
    the room numbers, guests, bookings and bills are as before. *)
Theorem update_room_outcome (h : HotelManager) (n : string)
    (room_type price : option string) :
  (find_room h n = None ->
   update_room float_of_str strip n room_type price h = (Return false, h)) /\
  (forall room,
      find_room h n = Some room ->
      exists h',
        update_room float_of_str strip n room_type price h = (Return true, h') /\
        find_room h' n
        = Some (Room.mk (Room.number room) (or_keep strip room_type (Room.type room))
                        (price_or_keep float_of_str strip price (Room.price room))
                        (Room.is_occupied room)) /\
        map Room.number (rooms h') = map Room.number (rooms h) /\
        guests h' = guests h /\ bookings h' = bookings h /\ bills h' = bills h).
Proof.
  split.
  - intros Hnone. unfold update_room. run_m. rewrite Hnone. reflexivity.
  - intros room Hfind. unfold update_room, or_keep, price_or_keep. run_m.
    rewrite Hfind.
    assert (Hn : String.eqb (Room.number room) n = true).
    { unfold find_room in Hfind. apply find_some in Hfind. apply Hfind. }
    unfold find_room in *.
    destruct (given strip room_type); simpl;
      destruct (given strip price); simpl;
      try destruct (float_of_str _); simpl;
      eexists; (split; [reflexivity|]); simpl;
      rewrite ?map_update_first by reflexivity;
      (split; [|auto]).
    + rewrite find_update_first_twice with (x := room);
        [reflexivity | exact Hfind | exact Hn | exact Hn].
    + rewrite find_update_first with (x := room);
        [reflexivity | exact Hfind | exact Hn].
    + rewrite find_update_first with (x := room);
        [reflexivity | exact Hfind | exact Hn].
    + rewrite find_update_first with (x := room);
        [reflexivity | exact Hfind | exact Hn].
    + rewrite Hfind. destruct room; reflexivity.
    + rewrite Hfind. destruct room; reflexivity.
Qed.

End RoomUpdate.

(** ** Guests *)

Section Guests.

Variable strip : string -> string.

(** X4. [add_guest] always appends the guest and returns the id [uuid4] gave.
    [find_guest] on that id then gives the new guest when no stored guest had
    the id, and the older guest otherwise; every other lookup is as before. *)
Theorem add_guest_then_find (h : HotelManager)
    (uuid name phone email address : string) :
  let guest := Guest.mk uuid name phone email address in
  exists h',
    add_guest uuid name phone email address h = (Return uuid, h') /\
    guests h' = (guests h ++ [guest])%list /\
    find_guest h' uuid
    = match find_guest h uuid with Some old => Some old | None => Some guest end /\
    (forall g, g <> uuid -> find_guest h' g = find_guest h g) /\
    rooms h' = rooms h /\ bookings h' = bookings h /\ bills h' = bills h.
Proof.
  intros guest. eexists. split; [reflexivity|]. simpl.
  split; [reflexivity|]. unfold find_guest. simpl. split; [|split; [|auto]].
  - rewrite find_app. simpl. rewrite String.eqb_refl. reflexivity.
  - intros g Hg. rewrite find_app.
    destruct (find (fun x => String.eqb (Guest.guest_id x) g) (guests h));
      [reflexivity|].
    simpl. destruct (String.eqb_spec uuid g); [congruence | reflexivity].
Qed.

(** X5. [update_guest] on an id that is not stored returns [False] and
    changes nothing. On a stored one it returns [True]: the first guest of
    that id keeps the id and takes each field that is not blank; the guest
    ids, rooms, bookings and bills are as before; and with every field blank
    the store is left exactly as it was. *)
Theorem update_guest_outcome (h : HotelManager) (guest_id : string)
    (name phone email address : option string) :
  (find_guest h guest_id = None ->
   update_guest strip guest_id name phone email address h = (Return false, h)) /\
  (forall guest,
      find_guest h guest_id = Some guest ->
      exists h',
        update_guest strip guest_id name phone email address h = (Return true, h') /\
        find_guest h' guest_id
        = Some (Guest.mk (Guest.guest_id guest)
                  (or_keep strip name (Guest.name guest))
                  (or_keep strip phone (Guest.phone guest))
                  (or_keep strip email (Guest.email guest))
                  (or_keep strip address (Guest.address guest))) /\
        map Guest.guest_id (guests h') = map Guest.guest_id (guests h) /\
        rooms h' = rooms h /\ bookings h' = bookings h /\ bills h' = bills h /\
        (given strip name = false -> given strip phone = false -> given strip email = false ->
         given strip address = false -> h' = h)).
Proof.
  split.
  - intros Hnone. unfold update_guest. run_m. rewrite Hnone. reflexivity.
  - intros guest Hfind. unfold update_guest. run_m. rewrite Hfind.
    assert (Hid : String.eqb (Guest.guest_id guest) guest_id = true).
    { unfold find_guest in Hfind. apply find_some in Hfind. apply Hfind. }
    eexists. split; [reflexivity|]. unfold find_guest in *. simpl.
    split; [|split; [|repeat split]].
    + rewrite (find_update_first _ _ _ _ Hfind); [reflexivity | exact Hid].
    + apply map_update_first. reflexivity.
    + intros H1 H2 H3 H4. unfold or_keep. rewrite H1, H2, H3, H4.
      rewrite update_first_id; [destruct h; reflexivity|].
      intros [] _ _. reflexivity.
Qed.

End Guests.

(** ** What each call leaves alone *)

Section Frame.

Variable strptime : string -> outcome date.
Variable float_of_str : string -> option float.
Variable strip : string -> string.

(** Each call writes one list only. *)
Lemma run_frame c h :
  match c with
  | AddRoom _ _ _ | UpdateRoom _ _ _ =>
      guests (run strptime float_of_str strip c h) = guests h /\ bookings (run strptime float_of_str strip c h) = bookings h /\
      bills (run strptime float_of_str strip c h) = bills h
  | AddGuest _ _ _ _ _ | UpdateGuest _ _ _ _ _ =>
      rooms (run strptime float_of_str strip c h) = rooms h /\ bookings (run strptime float_of_str strip c h) = bookings h /\
      bills (run strptime float_of_str strip c h) = bills h
  | CreateBooking _ _ _ _ _ | UpdateBooking _ _ _ | CancelBooking _ =>
      rooms (run strptime float_of_str strip c h) = rooms h /\ guests (run strptime float_of_str strip c h) = guests h /\
      bills (run strptime float_of_str strip c h) = bills h
  | GenerateBill _ _ | ProcessPayment _ _ _ =>
      rooms (run strptime float_of_str strip c h) = rooms h /\ guests (run strptime float_of_str strip c h) = guests h /\
      bookings (run strptime float_of_str strip c h) = bookings h
  end.
Proof.
  destruct c; simpl.
  - unfold add_room. repeat split; crush_call.
  - unfold update_room. repeat split; crush_call.
  - repeat split.
  - unfold update_guest. repeat split; crush_call.
  - unfold create_booking. repeat split; crush_call.
  - unfold update_booking. repeat split; crush_call.
  - unfold cancel_booking. repeat split; crush_call.
  - rewrite generate_bill_cases. repeat split; repeat (break_match; simpl); reflexivity.
  - unfold process_payment. repeat split; crush_call.
Qed.

Lemma run_rooms_grow c h :
  incl (map Room.number (rooms h)) (map Room.number (rooms (run strptime float_of_str strip c h))).
Proof.
  destruct (run_room_numbers strptime float_of_str strip c h) as [-> | (n & _ & ->)].
  - apply incl_refl.
  - apply incl_appl, incl_refl.
Qed.

Lemma run_guests_grow c h :
  incl (map Guest.guest_id (guests h)) (map Guest.guest_id (guests (run strptime float_of_str strip c h))).
Proof.
  pose proof (run_frame c h) as Hf.
  destruct c; simpl in *;
    try (destruct Hf as (_ & -> & _); apply incl_refl);
    try (destruct Hf as (-> & _); apply incl_refl).
  - rewrite map_app. apply incl_appl, incl_refl.
  - unfold update_guest. run_m. destruct (find_guest h guest_id); simpl.
    + rewrite map_update_first by reflexivity. apply incl_refl.
    + apply incl_refl.
Qed.

(** The bookings after a call: as before, one appended by [create_booking],
    one re-dated by [update_booking], or some removed by [cancel_booking]. *)
Lemma run_bookings_cases c h :
  bookings (run strptime float_of_str strip c h) = bookings h \/
  (exists uuid g r d1 d2,
      find_guest h g <> None /\ find_room h r <> None /\ d1 < d2 /\
      bookings (run strptime float_of_str strip c h) = (bookings h ++ [new_booking uuid g r d1 d2])%list) \/
  (exists booking_id booking d1 d2,
      find_booking h booking_id = Some booking /\ d1 < d2 /\
      bookings (run strptime float_of_str strip c h)
      = update_first (fun b => String.eqb (Booking.booking_id b) booking_id)
                     (Booking.set_dates d1 d2) (bookings h)) \/
  (exists booking_id,
      bookings (run strptime float_of_str strip c h)
      = filter (fun b => negb (String.eqb (Booking.booking_id b) booking_id))
               (bookings h)).
Proof.
  pose proof (run_frame c h) as Hf.
  destruct c; simpl in *; try (left; tauto).
  - destruct (create_booking_cases strptime h uuid guest_id room_number
                check_in check_out)
      as [(Hsame & _) | (d1 & d2 & Hg & Hr & _ & _ & Hlt & _ & Heq)].
    + left. rewrite Hsame. reflexivity.
    + right. left. exists uuid, guest_id, room_number, d1, d2.
      rewrite Heq. auto.
  - destruct (update_booking_cases strptime strip h booking_id check_in check_out)
      as [Hsame | (booking & d1 & d2 & Hb & Hlt & _ & Heq)].
    + left. rewrite Hsame. reflexivity.
    + right. right. left. exists booking_id, booking, d1, d2.
      rewrite Heq. auto.
  - unfold cancel_booking. run_m. destruct (find_booking h booking_id); simpl.
    + right. right. right. exists booking_id. reflexivity.
    + left. reflexivity.
Qed.

End Frame.

(** ** Bookings *)

Section Bookings.

Variable strptime : string -> outcome date.
Variable float_of_str : string -> option float.
Variable strip : string -> string.

Lemma update_first_found_id {A} (p : A -> bool) (f : A -> A) l x :
  find p l = Some x -> f x = x -> update_first p f l = l.
Proof.
  induction l as [|y rest IH]; simpl; [reflexivity|].
  destruct (p y).
  - intros [= ->] ->. reflexivity.
  - intros Hfind Hf. rewrite IH; auto.
Qed.

Lemma find_filter_other (l : list Booking.t) id id' :
  id' <> id ->
  find (fun b => String.eqb (Booking.booking_id b) id')
       (filter (fun b => negb (String.eqb (Booking.booking_id b) id)) l)
  = find (fun b => String.eqb (Booking.booking_id b) id') l.
Proof.
  intros Hne. induction l as [|b rest IH]; simpl; [reflexivity|].
  destruct (String.eqb_spec (Booking.booking_id b) id) as [Hid|Hid]; simpl.
  - destruct (String.eqb_spec (Booking.booking_id b) id'); [congruence | exact IH].
  - rewrite IH. reflexivity.
Qed.

Lemma find_filter_same (l : list Booking.t) id :
  find (fun b => String.eqb (Booking.booking_id b) id)
       (filter (fun b => negb (String.eqb (Booking.booking_id b) id)) l)
  = None.
Proof.
  induction l as [|b rest IH]; simpl; [reflexivity|].
  destruct (String.eqb (Booking.booking_id b) id) eqn:Hid; simpl; [exact IH|].
  rewrite Hid. exact IH.
Qed.

Lemma wanted_date_intro x old d :
  (if given strip x
   then strptime (match x with Some s => s | None => "" end) = Return d
   else d = old) ->
  wanted_date strptime strip x old d.
Proof.
  unfold wanted_date. destruct (given strip x) eqn:Hg; [|auto].
  destruct x as [s|]; [|discriminate]. eauto.
Qed.

(** X6. [update_booking] changes the store only when it returns [True]:
    then the first booking of that id is re-dated and nothing else in the
    list changes; its check-in is the given one parsed, or its old one when
    the argument is blank, and likewise its check-out; check-in is before
    check-out, the room was available for these dates with the booking's id
    set aside, and its id, guest, room and flag are kept, as are rooms,
    guests and bills. A declined update ([False]) and a raised one leave the
    store as it was, and what it raises carries one of its own three
    messages, never the parser's. *)
Theorem update_booking_outcome (h : HotelManager) (booking_id : string)
    (check_in check_out : option string) :
  match update_booking strptime strip booking_id check_in check_out h with
  | (Return true, h') =>
      exists booking d1 d2,
        find_booking h booking_id = Some booking /\
        wanted_date strptime strip check_in (Booking.check_in booking) d1 /\
        wanted_date strptime strip check_out (Booking.check_out booking) d2 /\
        d1 < d2 /\
        is_room_available (bookings h) (Booking.room_number booking) d1 d2
                          (Some booking_id) = true /\
        bookings h'
        = update_first (fun b => String.eqb (Booking.booking_id b) booking_id)
                       (Booking.set_dates d1 d2) (bookings h) /\
        find_booking h' booking_id = Some (Booking.set_dates d1 d2 booking) /\
        map Booking.booking_id (bookings h') = map Booking.booking_id (bookings h) /\
        rooms h' = rooms h /\ guests h' = guests h /\ bills h' = bills h
  | (Return false, h') => h' = h
  | (ValueError msg, h') => h' = h /\ update_booking_message msg
  end.
Proof.
  unfold update_booking, update_booking_message. run_m.
  destruct (find_booking h booking_id) as [booking|] eqn:Hb; [|reflexivity].
  assert (Hid : String.eqb (Booking.booking_id booking) booking_id = true).
  { unfold find_booking in Hb. apply find_some in Hb. apply Hb. }
  destruct (given strip check_in) eqn:Hgi; simpl;
    [destruct (strptime (match check_in with Some s => s | None => "" end))
       as [d1|e1] eqn:Hpi; simpl; [|auto]|];
    (destruct (given strip check_out) eqn:Hgo; simpl;
     [destruct (strptime (match check_out with Some s => s | None => "" end))
        as [d2|e2] eqn:Hpo; simpl; [|auto]|]);
    match goal with
    | |- context [is_room_available _ _ ?a ?b _] =>
        destruct (Z.leb_spec b a); simpl; [auto|];
        destruct (is_room_available (bookings h) (Booking.room_number booking)
                    a b (Some booking_id)) eqn:Ha; simpl; [|reflexivity];
        exists booking, a, b;
        split; [reflexivity|];
        split; [apply wanted_date_intro; rewrite Hgi; auto|];
        split; [apply wanted_date_intro; rewrite Hgo; auto|];
        split; [assumption|];
        split; [exact Ha|];
        split; [reflexivity|];
        split; [unfold find_booking in *; simpl;
                rewrite find_update_first with (x := booking); auto|];
        split; [simpl; apply map_update_first; reflexivity|];
        auto
    end.
Qed.

Lemma reachable_dates_in_order h :
  reachable strptime float_of_str strip h -> dates_in_order h.
Proof.
  unfold dates_in_order.
  induction 1 as [|h c _ IH]; [constructor|].
  destruct (run_bookings_cases strptime float_of_str strip c h)
    as [-> | [(u & g & r & d1 & d2 & _ & _ & Hlt & ->)
           | [(bid & b & d1 & d2 & Hb & Hlt & ->) | (bid & ->)]]].
  - assumption.
  - apply Forall_app. split; [assumption|]. repeat constructor. assumption.
  - apply Forall_update_found with (x := b); auto.
  - rewrite Forall_forall in *. intros x Hx. apply IH.
    apply filter_In in Hx. tauto.
Qed.

(** X7. In every store reached from the empty one by the manager's calls,
    each stored booking checks out after it checks in: its [duration] is at
    least one day, and on any day it is exactly one of past, current and
    future. *)
Theorem stored_bookings_last_a_day (h : HotelManager)
    (Hreach : reachable strptime float_of_str strip h) :
  forall b, In b (bookings h) ->
            Booking.check_in b < Booking.check_out b /\
            1 <= BookingDates.duration b /\
            forall today,
              let state := (BookingDates.is_past today b,
                            BookingDates.is_current today b,
                            BookingDates.is_future today b) in
              state = (true, false, false) \/ state = (false, true, false) \/
              state = (false, false, true).
Proof.
  pose proof (reachable_dates_in_order h Hreach) as Hall.
  unfold dates_in_order in Hall. rewrite Forall_forall in Hall.
  intros b Hb. specialize (Hall b Hb).
  unfold BookingDates.duration, BookingDates.is_past, BookingDates.is_current,
    BookingDates.is_future.
  split; [lia | split; [lia|]].
  intros today. cbv zeta. rewrite Z.gtb_ltb.
  destruct (Z.ltb_spec (Booking.check_out b) today);
    destruct (Z.leb_spec (Booking.check_in b) today);
    destruct (Z.leb_spec today (Booking.check_out b));
    destruct (Z.ltb_spec today (Booking.check_in b));
    simpl; auto; lia.
Qed.

End Bookings.

Section BookingLifecycle.

Variable strptime : string -> outcome date.
Variable float_of_str : string -> option float.
Variable strip : string -> string.

Lemma others_clear l x b :
  clash_free l -> In x l -> In b l ->
  Booking.booking_id b <> Booking.booking_id x -> ~ clash x b.
Proof.
  intros Hfree Hx Hb Hne.
  destruct (In_nth_error _ _ Hx) as [i Hi].
  destruct (In_nth_error _ _ Hb) as [j Hj].
  apply (clash_free_no_double_booking l Hfree i j); auto.
Qed.

Lemma find_booking_some h booking_id booking :
  find_booking h booking_id = Some booking ->
  In booking (bookings h) /\ Booking.booking_id booking = booking_id.
Proof.
  unfold find_booking. intros Hf. apply find_some in Hf.
  rewrite String.eqb_eq in Hf. exact Hf.
Qed.

(** A stored booking's own dates are free on its room once the bookings
    under its id are set aside. *)
Lemma own_dates_clear h booking_id booking :
  clash_free (bookings h) ->
  find_booking h booking_id = Some booking ->
  Forall (fun b => Booking.room_number b = Booking.room_number booking ->
                   Booking.booking_id b = booking_id \/
                   ~ overlaps (Booking.check_in booking) (Booking.check_out booking) b)
         (bookings h).
Proof.
  intros Hfree Hfind. apply find_booking_some in Hfind. destruct Hfind as [Hin Hid].
  rewrite Forall_forall. intros b Hb Hroom.
  destruct (string_dec (Booking.booking_id b) booking_id) as [Heq|Hne]; [auto|].
  right. intros [H1 H2].
  apply (others_clear (bookings h) booking b); auto; [congruence|].
  unfold clash. auto.
Qed.

(** X8. In every store reached from the empty one by the manager's calls,
    [update_booking] on a stored booking (of non-empty id) with both dates
    left blank returns [True] and leaves the store exactly as it was: a
    booking never stands in its own way. *)
Theorem update_booking_blank_is_identity (h : HotelManager)
    (booking_id : string) (check_in check_out : option string) (booking : Booking.t)
    (Hreach : reachable strptime float_of_str strip h)
    (Hfind : find_booking h booking_id = Some booking)
    (Hid : booking_id <> "")
    (Hin : given strip check_in = false)
    (Hout : given strip check_out = false) :
  update_booking strptime strip booking_id check_in check_out h = (Return true, h).
Proof.
  pose proof (reachable_bookings_sound strptime float_of_str strip h Hreach) as Hfree.
  pose proof (reachable_dates_in_order strptime float_of_str strip h Hreach) as Hdates.
  destruct (find_booking_some _ _ _ Hfind) as [Hmem Hbid].
  unfold dates_in_order in Hdates. rewrite Forall_forall in Hdates.
  specialize (Hdates booking Hmem).
  unfold update_booking. run_m. rewrite Hfind, Hin, Hout. simpl.
  destruct (Z.leb_spec (Booking.check_out booking) (Booking.check_in booking));
    [lia|]. simpl.
  assert (Ha : is_room_available (bookings h) (Booking.room_number booking)
                 (Booking.check_in booking) (Booking.check_out booking)
                 (Some booking_id) = true).
  { apply is_room_available_true.
    pose proof (own_dates_clear h booking_id booking Hfree Hfind) as Hclear.
    rewrite Forall_forall in *. intros b Hb Hroom.
    destruct (Hclear b Hb Hroom) as [Heq | Hno]; [left | right; exact Hno].
    exists booking_id. auto. }
  rewrite Ha. simpl. f_equal.
  unfold find_booking in Hfind.
  rewrite (update_first_found_id _ _ _ _ Hfind); [destruct h; reflexivity|].
  destruct booking; reflexivity.
Qed.

(** X9. [cancel_booking] on an id that is not stored returns [False] and
    changes nothing. On a stored one it returns [True] and removes every
    booking of that id: the id is no longer found, every other id is found as
    before, and rooms, guests and bills -- also the bill of the cancelled
    booking -- stay. In a store reached from the empty one, the room is then
    available for the dates of the cancelled booking. *)
Theorem cancel_booking_outcome (h : HotelManager) (booking_id : string) :
  (find_booking h booking_id = None ->
   cancel_booking booking_id h = (Return false, h)) /\
  (forall booking,
      find_booking h booking_id = Some booking ->
      exists h',
        cancel_booking booking_id h = (Return true, h') /\
        find_booking h' booking_id = None /\
        (forall other, other <> booking_id ->
                       find_booking h' other = find_booking h other) /\
        rooms h' = rooms h /\ guests h' = guests h /\ bills h' = bills h /\
        (reachable strptime float_of_str strip h ->
         is_room_available (bookings h') (Booking.room_number booking)
                           (Booking.check_in booking) (Booking.check_out booking)
                           None = true)).
Proof.
  split.
  - intros Hnone. unfold cancel_booking. run_m. rewrite Hnone. reflexivity.
  - intros booking Hfind. unfold cancel_booking. run_m. rewrite Hfind.
    eexists. split; [reflexivity|]. unfold find_booking. simpl.
    split; [apply find_filter_same|].
    split; [intros other Hne; apply find_filter_other; exact Hne|].
    repeat split.
    intros Hreach.
    pose proof (reachable_bookings_sound strptime float_of_str strip h Hreach) as Hfree.
    pose proof (own_dates_clear h booking_id booking Hfree Hfind) as Hclear.
    apply is_room_available_true. rewrite Forall_forall in *.
    intros b Hb Hroom. apply filter_In in Hb. destruct Hb as [Hb Hne].
    destruct (Hclear b Hb Hroom) as [Heq | Hno]; [|right; exact Hno].
    rewrite Heq, String.eqb_refl in Hne. discriminate.
Qed.

(** X10. After a [create_booking] that returned an id, with the dates
    parsed as [d1] and [d2]: the new booking is what [find_booking] gives for
    that id when no stored booking had it, and any further [create_booking]
    on the same room for dates that parse, are in order and overlap
    [d1, d2) is declined with [None], whoever the guest, and changes
    nothing. *)
Theorem create_booking_then_taken (h h' : HotelManager)
    (uuid guest_id room_number check_in check_out id : string) (d1 d2 : date)
    (Hcreate : create_booking strptime uuid guest_id room_number check_in check_out h
               = (Return (Some id), h'))
    (Hd1 : strptime check_in = Return d1)
    (Hd2 : strptime check_out = Return d2) :
  (find_booking h uuid = None ->
   find_booking h' uuid = Some (new_booking uuid guest_id room_number d1 d2)) /\
  (forall uuid2 guest2 check_in2 check_out2 e1 e2,
      strptime check_in2 = Return e1 -> strptime check_out2 = Return e2 ->
      e1 < e2 -> e1 < d2 -> e2 > d1 ->
      create_booking strptime uuid2 guest2 room_number check_in2 check_out2 h'
      = (Return None, h')).
Proof.
  destruct (create_booking_cases strptime h uuid guest_id room_number
              check_in check_out)
    as [(_ & Hfail & _) | (a & b & Hg & Hr & Ha & Hb & Hlt & Hav & Heq)].
  { exfalso. apply (Hfail id). rewrite Hcreate. reflexivity. }
  cbv zeta in Heq. rewrite Hcreate in Heq. injection Heq as _ ->.
  assert (a = d1) by congruence. assert (b = d2) by congruence. subst a b.
  split.
  - intros Hnone. unfold find_booking in *. simpl.
    rewrite find_app, Hnone. simpl. rewrite String.eqb_refl. reflexivity.
  - intros uuid2 guest2 ci2 co2 e1 e2 He1 He2 Horder Hl Hr2.
    unfold create_booking. run_m.
    destruct (find_guest _ guest2); [|reflexivity].
    assert (Hroom : find_room
                      (set_bookings
                         (bookings h ++ [new_booking uuid guest_id room_number d1 d2])
                         h) room_number = find_room h room_number) by reflexivity.
    rewrite Hroom. destruct (find_room h room_number); [|congruence].
    rewrite He1, He2. simpl.
    destruct (Z.leb_spec e2 e1); [lia|]. simpl.
    assert (Hno : is_room_available
                    (bookings h ++ [new_booking uuid guest_id room_number d1 d2])
                    room_number e1 e2 None = false).
    { apply is_room_available_false.
      exists (new_booking uuid guest_id room_number d1 d2).
      split; [apply in_or_app; right; left; reflexivity|].
      split; [reflexivity|]. split; [intros (e & He & _); discriminate|].
      unfold overlaps. simpl. lia. }
    rewrite Hno. reflexivity.
Qed.

Lemma reachable_references_resolve h :
  reachable strptime float_of_str strip h -> references_resolve h.
Proof.
  unfold references_resolve.
  induction 1 as [|h c _ IH]; [constructor|].
  pose proof (run_rooms_grow strptime float_of_str strip c h) as Hrooms.
  pose proof (run_guests_grow strptime float_of_str strip c h) as Hguests.
  assert (Hold : Forall
            (fun b =>
               In (Booking.room_number b)
                  (map Room.number (rooms (run strptime float_of_str strip c h))) /\
               In (Booking.guest_id b)
                  (map Guest.guest_id (guests (run strptime float_of_str strip c h))))
            (bookings h)).
  { rewrite Forall_forall in *. intros b Hb. destruct (IH b Hb). auto. }
  destruct (run_bookings_cases strptime float_of_str strip c h)
    as [-> | [(u & g & r & d1 & d2 & Hg & Hr & _ & ->)
           | [(bid & b & d1 & d2 & Hb & _ & ->) | (bid & ->)]]].
  - assumption.
  - apply Forall_app. split; [assumption|]. repeat constructor; simpl.
    + apply Hrooms, find_room_in. assumption.
    + apply Hguests, find_guest_in. assumption.
  - apply Forall_update_found with (x := b); [exact Hold | exact Hb |].
    rewrite Forall_forall in Hold. simpl. apply (Hold b).
    apply (find_booking_some h bid b Hb).
  - rewrite Forall_forall in *. intros x Hx. apply Hold.
    apply filter_In in Hx. tauto.
Qed.

(** X11. In every store reached from the empty one by the manager's calls,
    each stored booking names a room and a guest that are found (nothing
    deletes them), so [generate_bill] on a stored booking never fails: it
    returns a bill of that booking. *)
Theorem stored_booking_can_be_billed (h : HotelManager)
    (Hreach : reachable strptime float_of_str strip h) :
  (forall b, In b (bookings h) ->
             find_room h (Booking.room_number b) <> None /\
             find_guest h (Booking.guest_id b) <> None) /\
  (forall uuid booking_id booking,
      find_booking h booking_id = Some booking ->
      exists bill h',
        generate_bill uuid booking_id h = (Return (Some bill), h') /\
        Bill.booking_id bill = booking_id).
Proof.
  pose proof (reachable_references_resolve h Hreach) as Href.
  unfold references_resolve in Href. rewrite Forall_forall in Href.
  split.
  - intros b Hb. rewrite find_room_in, find_guest_in. auto.
  - intros uuid booking_id booking Hfind.
    rewrite generate_bill_cases, Hfind.
    destruct (existing_bill h booking_id) as [bill|] eqn:Hbill.
    + exists bill, h. split; [reflexivity|].
      unfold existing_bill in Hbill. apply find_some in Hbill.
      apply String.eqb_eq, Hbill.
    + destruct (find_booking_some h booking_id booking Hfind) as [Hmem _].
      destruct (Href booking Hmem) as [Hroom _].
      apply find_room_in in Hroom.
      destruct (find_room h (Booking.room_number booking)); [|congruence].
      eexists. eexists. split; reflexivity.
Qed.

End BookingLifecycle.

(** ** Bills *)

Section Bills.

Variable strptime : string -> outcome date.
Variable float_of_str : string -> option float.
Variable strip : string -> string.

Lemma find_by_unique_key {A} (key : A -> string) (l : list A) x :
  NoDup (map key l) -> In x l ->
  find (fun y => String.eqb (key y) (key x)) l = Some x.
Proof.
  induction l as [|y rest IH]; simpl; [intros _ []|].
  intros Hnd Hin. inversion Hnd as [|? ? Hnotin Hnd']; subst.
  destruct Hin as [<-|Hin].
  - rewrite String.eqb_refl. reflexivity.
  - destruct (String.eqb_spec (key y) (key x)) as [Heq|_]; [|auto].
    exfalso. apply Hnotin. rewrite Heq. apply in_map. assumption.
Qed.

(** The booking ids on the bills after a call: as before, or with one more
    that no bill had. *)
Lemma run_billed_bookings c h :
  map Bill.booking_id (bills (run strptime float_of_str strip c h))
  = map Bill.booking_id (bills h) \/
  exists b, ~ In b (map Bill.booking_id (bills h)) /\
            map Bill.booking_id (bills (run strptime float_of_str strip c h))
            = (map Bill.booking_id (bills h) ++ [b])%list.
Proof.
  pose proof (run_frame strptime float_of_str strip c h) as Hf.
  destruct c; simpl in *;
    try (left; reflexivity);
    try (left; destruct Hf as (_ & _ & ->); reflexivity).
  - rewrite generate_bill_cases.
    destruct (find_booking h booking_id); simpl; [|auto].
    destruct (existing_bill h booking_id) eqn:He; simpl; [auto|].
    destruct (find_room h _); simpl; [|auto].
    right. exists booking_id. split; [|rewrite map_app; reflexivity].
    unfold existing_bill in He. rewrite find_none_existsb in He.
    intros Hin. apply in_map_iff in Hin. destruct Hin as (x & Hx & Hin).
    assert (Ht : existsb (fun bill => String.eqb (Bill.booking_id bill) booking_id)
                         (bills h) = true).
    { apply existsb_exists. exists x. rewrite String.eqb_eq. auto. }
    congruence.
  - left. unfold process_payment. run_m.
    repeat (break_match; simpl); rewrite ?map_update_first; reflexivity.
Qed.

Lemma reachable_billed_bookings h :
  reachable strptime float_of_str strip h -> NoDup (map Bill.booking_id (bills h)).
Proof.
  induction 1 as [|h c _ IH]; [constructor|].
  destruct (run_billed_bookings c h) as [-> | (n & Hn & ->)]; [assumption|].
  apply NoDup_app; [assumption | repeat constructor; intros [] |].
  intros x Hx [<-|[]]. auto.
Qed.

(** X12. In every store reached from the empty one by the manager's calls
    no two bills are for the same booking id: any stored bill is the one
    [generate_bill]'s scan finds for its booking id, and at most one bill
    names a given booking. *)
Theorem one_bill_per_booking (h : HotelManager)
    (Hreach : reachable strptime float_of_str strip h) :
  NoDup (map Bill.booking_id (bills h)) /\
  (forall bill, In bill (bills h) ->
                existing_bill h (Bill.booking_id bill) = Some bill) /\
  (forall booking_id, (bills_for booking_id (bills h) <= 1)%nat).
Proof.
  pose proof (reachable_billed_bookings h Hreach) as Hnd.
  split; [assumption|]. split.
  - intros bill Hin. apply (find_by_unique_key Bill.booking_id); assumption.
  - intros booking_id. unfold bills_for.
    induction (bills h) as [|b rest IH]; simpl; [lia|].
    inversion Hnd as [|? ? Hnotin Hnd']; subst.
    destruct (String.eqb_spec (Bill.booking_id b) booking_id) as [Heq|_]; [|auto].
    simpl. assert (Hz : filter (fun bill => String.eqb (Bill.booking_id bill) booking_id)
                               rest = []).
    { destruct (filter _ rest) as [|x xs] eqn:Hfl; [reflexivity|].
      exfalso. apply Hnotin.
      assert (Hx : In x (filter (fun bill => String.eqb (Bill.booking_id bill) booking_id)
                                rest)) by (rewrite Hfl; left; reflexivity).
      apply filter_In in Hx. destruct Hx as [Hx Hk].
      apply String.eqb_eq in Hk. rewrite Heq, <- Hk. apply in_map. assumption. }
    rewrite Hz. simpl. lia.
Qed.

(** X13. In every store reached from the empty one by the manager's calls
    each bill's status is [UNPAID] or [PAID], the two strings the revenue
    report tests for. *)
Theorem bill_status_is_known (h : HotelManager)
    (Hreach : reachable strptime float_of_str strip h) :
  Forall (fun bill => Bill.status bill = "UNPAID" \/ Bill.status bill = "PAID")
         (bills h).
Proof.
  induction Hreach as [|h c _ IH]; [constructor|].
  pose proof (run_frame strptime float_of_str strip c h) as Hf.
  destruct c; simpl in *;
    try exact IH;
    try (destruct Hf as (_ & _ & ->); exact IH).
  - rewrite generate_bill_cases.
    repeat (break_match; simpl); auto.
    apply Forall_app. split; [assumption|].
    constructor; [left; reflexivity | constructor].
  - unfold process_payment. run_m.
    repeat (break_match; simpl); auto.
    match goal with H : find_bill _ _ = Some _ |- _ => unfold find_bill in H end.
    eapply Forall_update_found; eauto.
Qed.

(** X14. [process_payment] changes the store only when it returns [True]:
    then a bill of that id was found, not yet [PAID], with the amount not
    below its own, and that bill is now [PAID] on [today] while every bill
    keeps its place, ids and amount and rooms, guests and bookings stay. It
    returns [False], leaving the store as it was, exactly when no bill has the
    id, the bill is [PAID] already, or the amount is below the bill's. It
    never raises. *)
Theorem process_payment_outcome (h : HotelManager) (today : date)
    (bill_id : string) (amount : float) :
  match process_payment today bill_id amount h with
  | (Return true, h') =>
      exists bill,
        find_bill h bill_id = Some bill /\
        Bill.status bill <> "PAID" /\
        PrimFloat.ltb amount (Bill.amount bill) = false /\
        find_bill h' bill_id = Some (Bill.pay today bill) /\
        map bill_key (bills h') = map bill_key (bills h) /\
        rooms h' = rooms h /\ guests h' = guests h /\ bookings h' = bookings h
  | (Return false, h') =>
      h' = h /\
      (find_bill h bill_id = None \/
       exists bill, find_bill h bill_id = Some bill /\
                    (Bill.status bill = "PAID" \/
                     PrimFloat.ltb amount (Bill.amount bill) = true))
  | (ValueError _, _) => False
  end.
Proof.
  unfold process_payment. run_m.
  destruct (find_bill h bill_id) as [bill|] eqn:Hfind; simpl; [|auto].
  destruct (String.eqb_spec (Bill.status bill) "PAID") as [Hp|Hp]; simpl.
  - split; [reflexivity|]. right. exists bill. auto.
  - destruct (PrimFloat.ltb amount (Bill.amount bill)) eqn:Hlt; simpl.
    + split; [reflexivity|]. right. exists bill. auto.
    + exists bill. unfold find_bill in *. simpl.
      repeat split; auto.
      * rewrite find_update_first with (x := bill); auto.
        apply find_some in Hfind. apply Hfind.
      * apply map_update_first. reflexivity.
Qed.

End Bills.

(** ** Billing twice *)

Section BillingTwice.

Variable strptime : string -> outcome date.
Variable float_of_str : string -> option float.
Variable strip : string -> string.

Lemma bills_for_at_most_one booking_id l :
  NoDup (map Bill.booking_id l) -> (bills_for booking_id l <= 1)%nat.
Proof.
  unfold bills_for. induction l as [|b rest IH]; simpl; intros Hnd; [lia|].
  inversion Hnd as [|? ? Hnotin Hnd']; subst.
  destruct (String.eqb_spec (Bill.booking_id b) booking_id) as [Heq|_]; [|auto].
  simpl.
  destruct (filter (fun bill => String.eqb (Bill.booking_id bill) booking_id) rest)
    as [|x xs] eqn:Hfl; [simpl; lia|].
  exfalso. apply Hnotin.
  assert (Hx : In x (filter (fun bill => String.eqb (Bill.booking_id bill) booking_id)
                            rest)) by (rewrite Hfl; left; reflexivity).
  apply filter_In in Hx. destruct Hx as [Hx Hk].
  apply String.eqb_eq in Hk. rewrite Heq, <- Hk. apply in_map. assumption.
Qed.

(** C5, as the code has it. While the booking is in the store: if a bill
    for it exists, [generate_bill] returns that bill and leaves the store as
    it is; and in a store reached from the empty one by the manager's calls,
    two calls in a row both return the same bill, of that booking, the second
    appending nothing, with exactly one bill for the booking in the store. *)
Theorem generate_bill_idempotent_while_booked
    (h : HotelManager) (uuid uuid' booking_id : string) (booking : Booking.t)
    (Hbooked : find_booking h booking_id = Some booking) :
  (forall bill, existing_bill h booking_id = Some bill ->
                generate_bill uuid booking_id h = (Return (Some bill), h)) /\
  (reachable strptime float_of_str strip h ->
   exists bill h1,
     generate_bill uuid booking_id h = (Return (Some bill), h1) /\
     generate_bill uuid' booking_id h1 = (Return (Some bill), h1) /\
     Bill.booking_id bill = booking_id /\
     bills_for booking_id (bills h1) = 1%nat).
Proof.
  split.
  - intros bill Hbill. rewrite generate_bill_cases, Hbooked, Hbill. reflexivity.
  - intros Hreach.
    pose proof (reachable_billed_bookings strptime float_of_str strip h Hreach) as Hnd.
    pose proof (reachable_references_resolve strptime float_of_str strip h Hreach)
      as Href.
    unfold references_resolve in Href. rewrite Forall_forall in Href.
    destruct (find_booking_some h booking_id booking Hbooked) as [Hmem _].
    destruct (Href booking Hmem) as [Hroom _]. apply find_room_in in Hroom.
    rewrite !generate_bill_cases, Hbooked.
    destruct (existing_bill h booking_id) as [old|] eqn:Hold.
    + exists old, h. rewrite generate_bill_cases, Hbooked, Hold.
      split; [reflexivity|]. split; [reflexivity|].
      pose proof (bills_for_at_most_one booking_id (bills h) Hnd) as Hle.
      pose proof (find_some_bills_for booking_id (bills h) old Hold) as Hge.
      unfold existing_bill in Hold. apply find_some in Hold.
      split; [apply String.eqb_eq, Hold | lia].
    + destruct (find_room h (Booking.room_number booking)) as [room|] eqn:Hr;
        [|congruence].
      cbv zeta. eexists. eexists. split; [reflexivity|].
      rewrite generate_bill_cases.
      unfold find_booking, existing_bill in *. simpl.
      rewrite Hbooked, find_app, Hold. simpl. rewrite String.eqb_refl.
      split; [reflexivity|]. split; [reflexivity|].
      rewrite bills_for_app, (find_none_bills_for _ _ Hold).
      unfold bills_for. simpl. rewrite String.eqb_refl. reflexivity.
Qed.

End BillingTwice.

(** Three nights billed once: the second request returns the first bill. *)
Lemma generate_bill_idempotent_while_booked_witness :
  generate_bill "i0000002" "b0000001" billed_hotel
  = (Return (Some june_bill), billed_hotel) /\
  exists bill h1,
    generate_bill "i0000001" "b0000001" booked_hotel = (Return (Some bill), h1) /\
    generate_bill "i0000002" "b0000001" h1 = (Return (Some bill), h1) /\
    Bill.booking_id bill = "b0000001" /\
    bills_for "b0000001" (bills h1) = 1%nat.
Proof.
  split.
  - apply (generate_bill_idempotent_while_booked Calendar.strptime
             Calendar.float_of_str PyStr.strip billed_hotel
             "i0000002" "i0000003" "b0000001" june_booking eq_refl).
    reflexivity.
  - apply (generate_bill_idempotent_while_booked Calendar.strptime
             Calendar.float_of_str PyStr.strip booked_hotel
             "i0000001" "i0000002" "b0000001" june_booking eq_refl).
    exact booked_hotel_reachable.
Defined.

(** ** Payments that are not numbers *)

Section NotANumber.

Lemma SFeqb_self_false (s : spec_float) : SFeqb s s = false -> s = S754_nan.
Proof.
  unfold SFeqb. destruct s as [sg | sg | | sg m e]; simpl; try discriminate;
    try reflexivity.
  - destruct sg; discriminate.
  - change (Pos.compare_cont Eq m m) with (m ?= m)%positive.
    rewrite Z.compare_refl, Pos.compare_refl. destruct sg; discriminate.
Qed.

Lemma is_nan_spec (x : float) : PrimFloat.is_nan x = true -> Prim2SF x = S754_nan.
Proof.
  unfold PrimFloat.is_nan. rewrite negb_true_iff, FloatAxioms.eqb_spec.
  apply SFeqb_self_false.
Qed.

(** [x < y] is false as soon as one side is not a number. *)
Lemma ltb_nan (x y : float) :
  PrimFloat.is_nan x = true \/ PrimFloat.is_nan y = true ->
  PrimFloat.ltb x y = false.
Proof.
  rewrite ltb_spec. intros [H|H]; apply is_nan_spec in H; rewrite H.
  - reflexivity.
  - unfold SFltb. destruct (Prim2SF x) as [| [|] | |]; reflexivity.
Qed.

(** X15. A payment whose amount is not a number ([float("nan")], which the
    menu's [float(amount)] accepts), or a payment on a bill whose amount is
    not a number, settles any bill that is not yet [PAID]: the only test is
    [amount < bill.amount], which is false on such values. *)
Theorem process_payment_accepts_nan (h : HotelManager) (today : date)
    (bill_id : string) (amount : float) (bill : Bill.t)
    (Hfind : find_bill h bill_id = Some bill)
    (Hunpaid : Bill.status bill <> "PAID")
    (Hnan : PrimFloat.is_nan amount = true \/
            PrimFloat.is_nan (Bill.amount bill) = true) :
  exists h',
    process_payment today bill_id amount h = (Return true, h') /\
    find_bill h' bill_id = Some (Bill.pay today bill).
Proof.
  unfold process_payment. run_m. rewrite Hfind.
  apply String.eqb_neq in Hunpaid. rewrite Hunpaid, (ltb_nan _ _ Hnan). simpl.
  eexists. split; [reflexivity|].
  unfold find_bill in *. simpl.
  rewrite find_update_first with (x := bill); auto.
  apply find_some in Hfind. apply Hfind.
Qed.

End NotANumber.

(** ** The revenue report, once more *)

Section RevenueReport.

Variable strptime : string -> outcome date.

(** X16. [generate_revenue_report] never changes the store. It raises when
    a date does not parse, passing the parser's message on behind its own,
    and when the end date is before the start date; a range of one day is
    accepted. When it returns, its count of paid bills is the number of bills
    summed into the total. *)
Theorem revenue_report_outcome (h : HotelManager) (start_date end_date : string) :
  snd (generate_revenue_report strptime start_date end_date h) = h /\
  (forall msg,
      strptime start_date = ValueError msg ->
      fst (generate_revenue_report strptime start_date end_date h)
      = ValueError ("Invalid date format. Please use YYYY-MM-DD format. " ++ msg)) /\
  (forall start msg,
      strptime start_date = Return start -> strptime end_date = ValueError msg ->
      fst (generate_revenue_report strptime start_date end_date h)
      = ValueError ("Invalid date format. Please use YYYY-MM-DD format. " ++ msg)) /\
  (forall start end_,
      strptime start_date = Return start -> strptime end_date = Return end_ ->
      if end_ <? start then
        fst (generate_revenue_report strptime start_date end_date h)
        = ValueError ("Invalid date format. Please use YYYY-MM-DD format. "
                      ++ "End date must be after start date.")
      else
        exists r,
          fst (generate_revenue_report strptime start_date end_date h) = Return r /\
          paid_bills r
          = count (fun b => booking_stored h b && paid_within start end_ b) (bills h)).
Proof.
  unfold generate_revenue_report. run_m.
  split; [|split; [|split]].
  - destruct (strptime start_date); simpl; [|reflexivity].
    destruct (strptime end_date); simpl; [|reflexivity].
    destruct (_ <? _); reflexivity.
  - intros msg ->. reflexivity.
  - intros start msg -> ->. reflexivity.
  - intros start end_ -> ->. simpl.
    destruct (end_ <? start); simpl; [reflexivity|].
    eexists. split; [reflexivity|].
    destruct (revenue_loop h start end_ (bills h) (mkRevenue PrimFloat.zero 0 0 []))
      as (_ & Hp & _).
    rewrite Hp. simpl. lia.
Qed.

End RevenueReport.

(** ** The occupancy report *)

Section Occupancy.

Lemma type_add_sums t o d :
  sum_total (type_add t o d) = sum_total d + 1 /\
  sum_occupied (type_add t o d) = sum_occupied d + (if o then 1 else 0).
Proof.
  induction d as [|[k [total occ]] rest [IH1 IH2]]; simpl.
  - destruct o; split; reflexivity.
  - destruct (String.eqb k t); simpl.
    + destruct o; split; lia.
    + rewrite IH1, IH2. split; lia.
Qed.

Lemma type_add_sound t o d :
  Forall entry_sound d -> Forall entry_sound (type_add t o d).
Proof.
  unfold entry_sound.
  induction d as [|[k [total occ]] rest IH]; simpl; intros Hall.
  - constructor; [|constructor]. destruct o; simpl; lia.
  - inversion Hall as [|? ? Hx Hrest]; subst. simpl in Hx.
    destruct (String.eqb k t); constructor; auto.
    destruct o; simpl; lia.
Qed.

Lemma type_add_keys t o d :
  map fst (type_add t o d)
  = if existsb (fun k => String.eqb k t) (map fst d) then map fst d
    else (map fst d ++ [t])%list.
Proof.
  induction d as [|[k [total occ]] rest IH]; simpl; [reflexivity|].
  destruct (String.eqb k t); simpl; [reflexivity|].
  rewrite IH. destruct (existsb _ (map fst rest)); reflexivity.
Qed.

Lemma type_add_nodup t o d :
  NoDup (map fst d) -> NoDup (map fst (type_add t o d)).
Proof.
  intros Hnd. rewrite type_add_keys.
  destruct (existsb _ (map fst d)) eqn:He; [assumption|].
  apply NoDup_app; [assumption | repeat constructor; intros [] |].
  intros x Hx [<-|[]].
  assert (Ht : existsb (fun k => String.eqb k t) (map fst d) = true).
  { apply existsb_exists. exists t. rewrite String.eqb_refl. auto. }
  congruence.
Qed.

(** The two loops over the rooms, from any running figures. *)
Lemma occupancy_loops h today l n d :
  let occupied := fold_left (fun n room => if occupied_on h today room then n + 1 else n)
                            l n in
  let types := fold_left (fun d room =>
                            type_add (Room.type room) (occupied_on h today room) d)
                         l d in
  occupied = n + count (occupied_on h today) l /\
  sum_total types = sum_total d + Z.of_nat (List.length l) /\
  sum_occupied types = sum_occupied d + count (occupied_on h today) l /\
  (Forall entry_sound d -> Forall entry_sound types) /\
  (NoDup (map fst d) -> NoDup (map fst types)).
Proof.
  revert n d. induction l as [|room l IH]; intros n d; cbv zeta.
  - unfold count. simpl. repeat split; auto; lia.
  - simpl fold_left. rewrite count_cons.
    destruct (IH (if occupied_on h today room then n + 1 else n)
                 (type_add (Room.type room) (occupied_on h today room) d))
      as (H1 & H2 & H3 & H4 & H5).
    cbv zeta in *. rewrite H1, H2, H3.
    destruct (type_add_sums (Room.type room) (occupied_on h today room) d)
      as [-> ->].
    repeat split.
    + destruct (occupied_on h today room); lia.
    + simpl List.length. lia.
    + destruct (occupied_on h today room); lia.
    + intros Hd. apply H4, type_add_sound, Hd.
    + intros Hd. apply H5, type_add_nodup, Hd.
Qed.

Lemma count_bounds {A} (p : A -> bool) l :
  0 <= count p l <= Z.of_nat (List.length l).
Proof.
  unfold count. pose proof (filter_length_le p l). lia.
Qed.

Lemma type_add_figures t o t' d :
  figures_of t' (type_add t o d)
  = if String.eqb t t'
    then (fst (figures_of t' d) + 1,
          if o then snd (figures_of t' d) + 1 else snd (figures_of t' d))
    else figures_of t' d.
Proof.
  unfold figures_of. induction d as [|[k [total occ]] rest IH]; simpl.
  - destruct (String.eqb t t'); reflexivity.
  - destruct (String.eqb_spec k t) as [->|Hk]; simpl.
    + destruct (String.eqb t t'); reflexivity.
    + destruct (String.eqb_spec k t') as [->|Hk']; simpl; [|exact IH].
      destruct (String.eqb_spec t t'); [congruence | reflexivity].
Qed.

(** The per-type loop, type by type, from any running dict. *)
Lemma occupancy_by_type h today t l d :
  figures_of t (fold_left (fun d room =>
                             type_add (Room.type room) (occupied_on h today room) d)
                          l d)
  = (fst (figures_of t d)
     + count (fun room => String.eqb (Room.type room) t) l,
     snd (figures_of t d)
     + count (fun room => String.eqb (Room.type room) t && occupied_on h today room) l).
Proof.
  revert d. induction l as [|room l IH]; intros d.
  - unfold count. simpl. destruct (figures_of t d). simpl. f_equal; lia.
  - simpl fold_left. rewrite IH, type_add_figures, !count_cons.
    destruct (figures_of t d) as [a b].
    destruct (String.eqb (Room.type room) t); cbn [fst snd andb];
      [destruct (occupied_on h today room); cbn [fst snd]|]; f_equal; lia.
Qed.

Lemma count_positive {A} (p : A -> bool) l :
  1 <= count p l <-> exists x, In x l /\ p x = true.
Proof.
  unfold count. split.
  - intros Hc. destruct (filter p l) as [|x rest] eqn:Hf; [simpl in Hc; lia|].
    exists x. apply filter_In. rewrite Hf. left. reflexivity.
  - intros (x & Hx). apply filter_In in Hx.
    destruct (filter p l); [contradiction | simpl List.length; lia].
Qed.

(** X17. [generate_occupancy_report] never changes the store and never
    raises. On a hotel without rooms it returns early. Otherwise the total is
    the number of rooms, the occupied figure is the number of rooms with some
    booking having [check_in <= today <= check_out], between 0 and the
    total; the per-type dict has exactly the types of the rooms as keys, each
    once, the entry of a type holding the number of rooms of that type and
    the number of those that are occupied, so [0 <= occupied <= total] with a
    room in it; and its totals and occupied figures add up to those of the
    hotel. *)
Theorem occupancy_report_figures (h : HotelManager) (today : date) :
  snd (generate_occupancy_report today h) = h /\
  (rooms h = [] -> fst (generate_occupancy_report today h) = Return None) /\
  (rooms h <> [] ->
   exists r,
     fst (generate_occupancy_report today h) = Return (Some r) /\
     total_rooms r = Z.of_nat (List.length (rooms h)) /\
     occupied_rooms r = count (occupied_on h today) (rooms h) /\
     0 <= occupied_rooms r <= total_rooms r /\
     occupancy_rate r = percentage (occupied_rooms r) (total_rooms r) /\
     NoDup (map fst (room_types r)) /\
     (forall t, In t (map fst (room_types r)) <-> In t (map Room.type (rooms h))) /\
     (forall t total occupied,
         In (t, (total, occupied)) (room_types r) ->
         total = count (fun room => String.eqb (Room.type room) t) (rooms h) /\
         occupied = count (fun room => String.eqb (Room.type room) t
                                       && occupied_on h today room) (rooms h)) /\
     Forall (fun entry => 0 <= snd (snd entry) <= fst (snd entry)
                          /\ 1 <= fst (snd entry))
            (room_types r) /\
     sum_total (room_types r) = total_rooms r /\
     sum_occupied (room_types r) = occupied_rooms r).
Proof.
  unfold generate_occupancy_report. run_m.
  split; [destruct (rooms h); reflexivity|].
  split; [intros ->; reflexivity|].
  intros Hne. destruct (rooms h) as [|room rest] eqn:Hrooms; [congruence|].
  rewrite <- Hrooms. clear Hne.
  eexists. split; [reflexivity|]. simpl.
  destruct (occupancy_loops h today (rooms h) 0 []) as (H1 & H2 & H3 & H4 & H5).
  cbv zeta in *.
  pose proof (count_bounds (occupied_on h today) (rooms h)) as Hb.
  specialize (H4 (Forall_nil _)). specialize (H5 (NoDup_nil _)).
  set (types := fold_left (fun d room =>
                             type_add (Room.type room) (occupied_on h today room) d)
                          (rooms h) []) in *.
  assert (Hfig : forall t,
            figures_of t types
            = (count (fun room => String.eqb (Room.type room) t) (rooms h),
               count (fun room => String.eqb (Room.type room) t
                                  && occupied_on h today room) (rooms h))).
  { intros t. unfold types. rewrite occupancy_by_type. reflexivity. }
  assert (Hentry : forall t total occupied,
            In (t, (total, occupied)) types ->
            total = count (fun room => String.eqb (Room.type room) t) (rooms h) /\
            occupied = count (fun room => String.eqb (Room.type room) t
                                          && occupied_on h today room) (rooms h)).
  { intros t total occupied Hin.
    pose proof (find_by_unique_key fst types (t, (total, occupied)) H5 Hin) as Hf.
    specialize (Hfig t). unfold figures_of in Hfig. simpl in Hf.
    rewrite Hf in Hfig. simpl in Hfig. injection Hfig as -> ->. auto. }
  rewrite H1, H2, H3. simpl.
  split; [reflexivity|]. split; [lia|]. split; [lia|]. split; [reflexivity|].
  split; [exact H5|]. split; [|split; [exact Hentry|]].
  - intros t. split.
    + intros Hin. apply in_map_iff in Hin.
      destruct Hin as ([k [total occupied]] & Hk & Hin). simpl in Hk. subst k.
      destruct (Hentry t total occupied Hin) as [Htotal _].
      rewrite Forall_forall in H4. destruct (H4 _ Hin) as [_ Hone].
      simpl in Hone. rewrite Htotal in Hone.
      apply count_positive in Hone. destruct Hone as (x & Hx & Ht).
      apply String.eqb_eq in Ht. rewrite <- Ht. apply in_map. exact Hx.
    + intros Hin. apply in_map_iff in Hin. destruct Hin as (x & Ht & Hx).
      assert (Hone : 1 <= fst (figures_of t types)).
      { rewrite Hfig. simpl. apply count_positive. exists x.
        rewrite String.eqb_eq. auto. }
      unfold figures_of in Hone.
      destruct (find (fun entry => String.eqb (fst entry) t) types)
        as [entry|] eqn:Hf; [|simpl in Hone; lia].
      apply find_some in Hf. destruct Hf as [Hin Hk].
      apply String.eqb_eq in Hk. rewrite <- Hk. apply in_map. exact Hin.
  - split; [exact H4|]. split; lia.
Qed.

(** X18. The report's day test is closed where the availability test is
    half-open: on the check-out day of a stored booking (whose dates are in
    order) the room counts as occupied, while, if no other booking of the
    room is stored, the room is available for a stay starting that day. *)
Theorem checkout_day_occupied_and_available (h : HotelManager) (room : Room.t)
    (b : Booking.t) (check_out : date)
    (Hstored : In b (bookings h))
    (Hroom : Booking.room_number b = Room.number room)
    (Horder : Booking.check_in b <= Booking.check_out b)
    (Honly : forall b', In b' (bookings h) ->
                        Booking.room_number b' = Room.number room -> b' = b) :
  occupied_on h (Booking.check_out b) room = true /\
  is_room_available (bookings h) (Room.number room) (Booking.check_out b)
                    check_out None = true.
Proof.
  split.
  - unfold occupied_on. apply existsb_exists. exists b. split; [assumption|].
    rewrite Hroom, String.eqb_refl. simpl.
    apply andb_true_iff. split; apply Z.leb_le; lia.
  - apply is_room_available_true. rewrite Forall_forall.
    intros b' Hb' Hr. right. rewrite (Honly b' Hb' Hr).
    unfold overlaps. lia.
Qed.

End Occupancy.

(** ** Guest statistics *)

Section GuestStatistics.

Lemma get_count_add k k' d :
  count_of k' (count_add k d) = count_of k' d + (if String.eqb k k' then 1 else 0).
Proof.
  unfold count_of. induction d as [|[k0 n] rest IH]; simpl.
  - destruct (String.eqb k k'); reflexivity.
  - destruct (String.eqb_spec k0 k) as [->|Hk]; simpl.
    + destruct (String.eqb k k'); simpl; lia.
    + destruct (String.eqb_spec k0 k') as [->|Hk']; simpl; [|exact IH].
      destruct (String.eqb_spec k k'); [congruence | lia].
Qed.

Lemma count_add_keys k d :
  map fst (count_add k d) = set_add k (map fst d).
Proof.
  unfold set_add. induction d as [|[k0 n] rest IH]; simpl; [reflexivity|].
  rewrite (String.eqb_sym k k0).
  destruct (String.eqb k0 k); simpl; [reflexivity|].
  rewrite IH. destruct (existsb (String.eqb k) (map fst rest)); reflexivity.
Qed.

Lemma set_add_nodup x s : NoDup s -> NoDup (set_add x s).
Proof.
  unfold set_add. intros Hnd. destruct (existsb (String.eqb x) s) eqn:He;
    [assumption|].
  apply NoDup_app; [assumption | repeat constructor; intros [] |].
  intros y Hy [<-|[]].
  assert (Ht : existsb (String.eqb x) s = true).
  { apply existsb_exists. exists x. rewrite String.eqb_refl. auto. }
  congruence.
Qed.

Lemma set_add_in x s y : In y (set_add x s) <-> y = x \/ In y s.
Proof.
  unfold set_add. destruct (existsb (String.eqb x) s) eqn:He.
  - apply existsb_exists in He. destruct He as (z & Hz & Heq).
    apply String.eqb_eq in Heq. subst z. split; [auto|]. intros [->|H]; auto.
  - rewrite in_app_iff. simpl. intuition.
Qed.

Lemma count_add_positive k d :
  Forall (fun entry => 1 <= snd entry) d ->
  Forall (fun entry => 1 <= snd entry) (count_add k d).
Proof.
  induction d as [|[k0 n] rest IH]; simpl; intros Hall.
  - repeat constructor. simpl. lia.
  - inversion Hall as [|? ? Hx Hrest]; subst. simpl in Hx.
    destruct (String.eqb k0 k); constructor; auto. simpl. lia.
Qed.

(** The two loops over the bookings, from any running set and dict. *)
Lemma statistics_loops (l : list Booking.t) s d :
  let set := fold_left (fun s b => set_add (Booking.guest_id b) s) l s in
  let dict := fold_left (fun d b => count_add (Booking.guest_id b) d) l d in
  (map fst d = s -> map fst dict = set) /\
  (NoDup s -> NoDup set) /\
  (forall g, In g set <-> In g s \/ In g (map Booking.guest_id l)) /\
  (forall g, count_of g dict = count_of g d + bookings_of g l) /\
  (Forall (fun entry => 1 <= snd entry) d ->
   Forall (fun entry => 1 <= snd entry) dict).
Proof.
  revert s d. induction l as [|b l IH]; intros s d; cbv zeta.
  - unfold bookings_of, count. simpl. repeat split; auto; try tauto. lia.
  - simpl fold_left. unfold bookings_of. rewrite map_cons.
    destruct (IH (set_add (Booking.guest_id b) s)
                 (count_add (Booking.guest_id b) d)) as (H1 & H2 & H3 & H4 & H5).
    cbv zeta in *. repeat split.
    + intros Hs. apply H1. rewrite count_add_keys, Hs. reflexivity.
    + intros Hs. apply H2, set_add_nodup, Hs.
    + rewrite H3, set_add_in. simpl. intuition.
    + rewrite H3, set_add_in. simpl. intuition.
    + intros g. rewrite H4, get_count_add. setoid_rewrite count_cons.
      unfold bookings_of. destruct (String.eqb (Booking.guest_id b) g); lia.
    + intros Hd. apply H5, count_add_positive, Hd.
Qed.

Lemma get_of_entry d entry :
  NoDup (map fst d) -> In entry d -> count_of (fst entry) d = snd entry.
Proof.
  intros Hnd Hin. unfold count_of.
  rewrite (find_by_unique_key fst d entry Hnd Hin). reflexivity.
Qed.

Lemma entry_of_get d k : 1 <= count_of k d -> In (k, count_of k d) d.
Proof.
  unfold count_of.
  destruct (find (fun entry => String.eqb (fst entry) k) d) as [[k0 n]|] eqn:Hf;
    [|lia].
  intros _. apply find_some in Hf. destruct Hf as [Hin Hk]. simpl in *.
  apply String.eqb_eq in Hk. subst k0. exact Hin.
Qed.

Lemma insert_desc_in x l y : In y (insert_desc x l) <-> y = x \/ In y l.
Proof.
  induction l as [|z rest IH]; simpl; [intuition|].
  destruct (snd z <? snd x); simpl; [intuition|]. rewrite IH. intuition.
Qed.

Lemma insert_desc_descending x l : descending l -> descending (insert_desc x l).
Proof.
  induction l as [|z rest IH]; simpl; intros Hd.
  - split; [constructor | exact I].
  - destruct Hd as [Hz Hrest].
    destruct (Z.ltb_spec (snd z) (snd x)) as [Hlt|Hge]; simpl.
    + split; [|split; assumption].
      constructor; [lia|]. rewrite Forall_forall in *.
      intros y Hy. specialize (Hz y Hy). lia.
    + split; [|auto]. rewrite Forall_forall in *.
      intros y Hy. apply insert_desc_in in Hy. destruct Hy as [->|Hy]; auto.
Qed.

Lemma sorted_desc_spec items :
  descending (sorted_desc items) /\
  forall y, In y (sorted_desc items) <-> In y items.
Proof.
  unfold sorted_desc.
  assert (Hgen : forall acc,
            descending acc ->
            descending (fold_left (fun acc x => insert_desc x acc) items acc) /\
            forall y, In y (fold_left (fun acc x => insert_desc x acc) items acc)
                      <-> In y acc \/ In y items).
  { induction items as [|x items IH]; intros acc Hacc; simpl.
    - split; [assumption | intuition].
    - destruct (IH (insert_desc x acc) (insert_desc_descending x acc Hacc))
        as [Hd Hin].
      split; [assumption|]. intros y. rewrite Hin, insert_desc_in. intuition. }
  destruct (Hgen [] I) as [Hd Hin]. split; [assumption|].
  intros y. rewrite Hin. simpl. intuition.
Qed.

Lemma descending_firstn n l : descending l -> descending (firstn n l).
Proof.
  revert n. induction l as [|x rest IH]; intros [|n] Hd; simpl; auto.
  destruct Hd as [Hx Hrest]. split; [|auto].
  rewrite Forall_forall in *. intros y Hy. apply Hx.
  rewrite <- (firstn_skipn n rest). apply in_or_app. auto.
Qed.

Lemma descending_cut n l x y :
  descending l -> In x (firstn n l) -> In y (skipn n l) -> snd y <= snd x.
Proof.
  revert n. induction l as [|z rest IH]; intros [|n] Hd Hx Hy; simpl in *;
    try contradiction.
  destruct Hd as [Hz Hrest]. destruct Hx as [<-|Hx].
  - rewrite Forall_forall in Hz. apply Hz.
    rewrite <- (firstn_skipn n rest). apply in_or_app. auto.
  - apply (IH n); assumption.
Qed.

(** X19. [generate_guest_statistics] never changes the store and never
    raises; with no guest registered it returns early. Otherwise the total is
    the number of guests, the guests with bookings are the distinct guest ids
    on the bookings, and the ranking has at most five rows, of distinct guest
    ids, from the most bookings down; each row's count is the number of
    stored bookings of its guest id, at least one, its name the found
    guest's or ["Unknown"]; and no guest id left out of the ranking has more
    bookings than one in it. *)
Theorem guest_statistics_figures (h : HotelManager) :
  snd (generate_guest_statistics h) = h /\
  (guests h = [] -> fst (generate_guest_statistics h) = Return None) /\
  (guests h <> [] ->
   exists s,
     fst (generate_guest_statistics h) = Return (Some s) /\
     total_guests s = Z.of_nat (List.length (guests h)) /\
     guests_with_bookings_count s
     = Z.of_nat (List.length (nodup string_dec (map Booking.guest_id (bookings h)))) /\
     guests_without_bookings s = total_guests s - guests_with_bookings_count s /\
     (List.length (top_guests s) <= 5)%nat /\
     descending (map (fun row => (fst (fst row), snd row)) (top_guests s)) /\
     NoDup (map (fun row => fst (fst row)) (top_guests s)) /\
     (forall g name n,
         In (g, name, n) (top_guests s) ->
         n = bookings_of g (bookings h) /\ 1 <= n /\
         name = match find_guest h g with
                | Some guest => Guest.name guest
                | None => "Unknown"
                end) /\
     (forall g row,
         1 <= bookings_of g (bookings h) ->
         ~ In g (map (fun row => fst (fst row)) (top_guests s)) ->
         In row (top_guests s) ->
         bookings_of g (bookings h) <= snd row)).
Proof.
  unfold generate_guest_statistics, bind, get, ret. cbv beta iota zeta.
  split; [destruct (guests h); reflexivity|].
  split; [intros ->; reflexivity|].
  intros Hne. destruct (guests h) as [|guest rest] eqn:Hguests; [congruence|].
  clear Hne. cbv beta iota.
  eexists. split; [reflexivity|].
  cbn [total_guests guests_with_bookings_count guests_without_bookings top_guests].
  destruct (statistics_loops (bookings h) [] []) as (Hkeys & Hnd & Hset & Hget & Hpos).
  cbv zeta in *.
  specialize (Hkeys eq_refl). specialize (Hnd (NoDup_nil _)).
  specialize (Hpos (Forall_nil _)).
  set (dict := fold_left (fun d b => count_add (Booking.guest_id b) d)
                         (bookings h) []) in *.
  set (set := fold_left (fun s b => set_add (Booking.guest_id b) s)
                        (bookings h) []) in *.
  destruct (sorted_desc_spec dict) as [Hdesc Hsame].
  assert (Hdnd : NoDup (map fst dict)) by (rewrite Hkeys; exact Hnd).
  assert (Hentry : forall entry, In entry (firstn 5 (sorted_desc dict)) ->
                                 In entry dict).
  { intros entry Hin. apply Hsame.
    rewrite <- (firstn_skipn 5 (sorted_desc dict)). apply in_or_app. auto. }
  assert (Hcount : forall entry, In entry dict ->
                                 snd entry = bookings_of (fst entry) (bookings h)).
  { intros entry Hin. rewrite <- (get_of_entry dict entry Hdnd Hin), Hget.
    reflexivity. }
  split; [reflexivity|]. split.
  { f_equal. apply Nat.le_antisymm; apply NoDup_incl_length.
    - exact Hnd.
    - intros g Hg. apply nodup_In. apply Hset in Hg.
      destruct Hg as [[]|Hg]. exact Hg.
    - apply NoDup_nodup.
    - intros g Hg. apply nodup_In in Hg. apply Hset. auto. }
  split; [reflexivity|]. split.
  { rewrite length_map. apply firstn_le_length. }
  split.
  { rewrite map_map. cbn [fst snd].
    replace (map (fun x : string * Z => (fst x, snd x)) (firstn 5 (sorted_desc dict)))
      with (firstn 5 (sorted_desc dict)).
    - apply descending_firstn, Hdesc.
    - rewrite <- (map_id (firstn 5 (sorted_desc dict))) at 1.
      apply map_ext. intros []. reflexivity. }
  split.
  { rewrite map_map. cbn [fst snd].
    assert (Hsnd : NoDup (map fst (sorted_desc dict))).
    { apply NoDup_incl_NoDup with (l := map fst dict).
      - exact Hdnd.
      - rewrite !length_map.
        assert (Hlen : forall items acc,
                  List.length (fold_left (fun acc x => insert_desc x acc) items acc)
                  = (List.length acc + List.length items)%nat).
        { induction items as [|x items IH]; intros acc; simpl; [lia|].
          rewrite IH.
          assert (Hi : forall l, List.length (insert_desc x l) = S (List.length l)).
          { induction l as [|z l IHl]; simpl; [reflexivity|].
            destruct (snd z <? snd x); simpl; lia. }
          rewrite Hi. lia. }
        unfold sorted_desc. rewrite Hlen. simpl. lia.
      - intros k Hk. apply in_map_iff in Hk. destruct Hk as (entry & <- & Hin).
        apply in_map. apply Hsame. exact Hin. }
    rewrite <- (firstn_skipn 5 (sorted_desc dict)), map_app in Hsnd.
    apply NoDup_app_remove_r in Hsnd. exact Hsnd. }
  split.
  { intros g name n Hrow. apply in_map_iff in Hrow.
    destruct Hrow as (entry & Heq & Hin). injection Heq as <- <- <-.
    pose proof (Hentry entry Hin) as Hd.
    split; [apply Hcount; exact Hd|]. split; [|reflexivity].
    rewrite Forall_forall in Hpos. apply Hpos. exact Hd. }
  intros g row Hg Hnot Hrow.
  apply in_map_iff in Hrow. destruct Hrow as (entry & <- & Hin). cbn [fst snd].
  assert (Hgin : In (g, bookings_of g (bookings h)) (sorted_desc dict)).
  { apply Hsame. specialize (Hget g). unfold count_of at 2 in Hget. simpl in Hget.
    rewrite <- Hget. apply entry_of_get. rewrite Hget. exact Hg. }
  rewrite <- (firstn_skipn 5 (sorted_desc dict)) in Hgin.
  apply in_app_or in Hgin. destruct Hgin as [Htop | Hrest].
  - exfalso. apply Hnot. rewrite map_map. cbn [fst snd].
    apply in_map_iff. exists (g, bookings_of g (bookings h)). auto.
  - apply (descending_cut 5 (sorted_desc dict) entry _ Hdesc Hin Hrest).
Qed.

End GuestStatistics.

Section GuestStatisticsReachable.

Variable strptime : string -> outcome date.
Variable float_of_str : string -> option float.
Variable strip : string -> string.

(** X20. In every store reached from the empty one by the manager's calls
    the statistics are consistent: the guests with bookings are no more than
    the guests, so the guests without bookings are not negative, and every
    row of the ranking names a registered guest, never ["Unknown"] for want
    of one. *)
Theorem guest_statistics_consistent (h : HotelManager) (s : guest_statistics)
    (Hreach : reachable strptime float_of_str strip h)
    (Hstats : fst (generate_guest_statistics h) = Return (Some s)) :
  0 <= guests_without_bookings s /\
  guests_without_bookings s <= total_guests s /\
  (forall g name n,
      In (g, name, n) (top_guests s) ->
      exists guest, find_guest h g = Some guest /\ name = Guest.name guest).
Proof.
  pose proof (reachable_references_resolve strptime float_of_str strip h Hreach) as Href.
  unfold references_resolve in Href. rewrite Forall_forall in Href.
  destruct (statistics_loops (bookings h) [] []) as (Hkeys & Hnd & Hset & _ & _).
  cbv zeta in *.
  specialize (Hkeys eq_refl). specialize (Hnd (NoDup_nil _)).
  assert (Hknown : forall g,
            In g (fold_left (fun s b => set_add (Booking.guest_id b) s)
                            (bookings h) []) ->
            In g (map Guest.guest_id (guests h))).
  { intros g Hg. apply Hset in Hg. destruct Hg as [[]|Hg].
    apply in_map_iff in Hg. destruct Hg as (b & <- & Hb). apply (Href b Hb). }
  pose proof (NoDup_incl_length Hnd Hknown) as Hlen. rewrite length_map in Hlen.
  unfold generate_guest_statistics, bind, get, ret in Hstats.
  cbv beta iota zeta in Hstats.
  remember (Z.of_nat (List.length (guests h))) as total eqn:Htotal.
  destruct (guests h) as [|guest rest] eqn:Hguests; [discriminate|].
  cbn [fst] in Hstats. injection Hstats as <-.
  unfold total_guests, guests_with_bookings_count, guests_without_bookings, top_guests.
  split; [lia|]. split; [lia|].
  intros g name n Hrow. apply in_map_iff in Hrow.
  destruct Hrow as (entry & Heq & Hin). injection Heq as <- <- <-.
  assert (Hg : In (fst entry) (map Guest.guest_id (guests h))).
  { rewrite Hguests. apply Hknown. rewrite <- Hkeys. apply in_map.
    apply (sorted_desc_spec _). 
    rewrite <- (firstn_skipn 5 (sorted_desc _)). apply in_or_app. left. exact Hin. }
  apply find_guest_in in Hg.
  destruct (find_guest h (fst entry)) as [found|]; [|congruence].
  exists found. auto.
Qed.

End GuestStatisticsReachable.

(** ** More of the manager, on the stay *)

Lemma room_numbers_unique_witness :
  NoDup (map Room.number (rooms twice_booked_hotel)) /\
  (forall room, In room (rooms twice_booked_hotel) ->
                find_room twice_booked_hotel (Room.number room) = Some room).
Proof.
  exact (room_numbers_unique Calendar.strptime Calendar.float_of_str PyStr.strip
           twice_booked_hotel twice_booked_hotel_reachable).
Defined.

Lemma stored_bookings_last_a_day_witness :
  Booking.check_in june_booking < Booking.check_out june_booking /\
  1 <= BookingDates.duration june_booking /\
  forall today,
    let state := (BookingDates.is_past today june_booking,
                  BookingDates.is_current today june_booking,
                  BookingDates.is_future today june_booking) in
    state = (true, false, false) \/ state = (false, true, false) \/
    state = (false, false, true).
Proof.
  apply (stored_bookings_last_a_day Calendar.strptime Calendar.float_of_str PyStr.strip
           twice_booked_hotel twice_booked_hotel_reachable june_booking).
  left. reflexivity.
Defined.

Lemma update_booking_blank_is_identity_witness :
  update_booking Calendar.strptime PyStr.strip "b0000001" None (Some "  ") twice_booked_hotel
  = (Return true, twice_booked_hotel).
Proof.
  apply (update_booking_blank_is_identity Calendar.strptime Calendar.float_of_str PyStr.strip
           twice_booked_hotel "b0000001" None (Some "  ") june_booking).
  - exact twice_booked_hotel_reachable.
  - reflexivity.
  - discriminate.
  - reflexivity.
  - reflexivity.
Defined.

Lemma create_booking_then_taken_witness :
  (find_booking with_guest "b0000001" = None ->
   find_booking booked_hotel "b0000001"
   = Some (new_booking "b0000001" "g0000001" "101" 739038 739041)) /\
  (forall uuid2 guest2 check_in2 check_out2 e1 e2,
      Calendar.strptime check_in2 = Return e1 ->
      Calendar.strptime check_out2 = Return e2 ->
      e1 < e2 -> e1 < 739041 -> e2 > 739038 ->
      create_booking Calendar.strptime uuid2 guest2 "101" check_in2 check_out2
                     booked_hotel
      = (Return None, booked_hotel)).
Proof.
  apply (create_booking_then_taken Calendar.strptime with_guest booked_hotel
           "b0000001" "g0000001" "101" "2024-06-01" "2024-06-04" "b0000001"
           739038 739041); reflexivity.
Defined.

Lemma stored_booking_can_be_billed_witness :
  (forall b, In b (bookings booked_hotel) ->
             find_room booked_hotel (Booking.room_number b) <> None /\
             find_guest booked_hotel (Booking.guest_id b) <> None) /\
  exists bill h',
    generate_bill "i0000001" "b0000001" booked_hotel = (Return (Some bill), h') /\
    Bill.booking_id bill = "b0000001".
Proof.
  destruct (stored_booking_can_be_billed Calendar.strptime Calendar.float_of_str PyStr.strip
              booked_hotel booked_hotel_reachable) as [Hrefs Hbill].
  split; [exact Hrefs|].
  apply (Hbill "i0000001" "b0000001" june_booking). reflexivity.
Defined.

Lemma one_bill_per_booking_witness :
  NoDup (map Bill.booking_id (bills paid_hotel)) /\
  (forall bill, In bill (bills paid_hotel) ->
                existing_bill paid_hotel (Bill.booking_id bill) = Some bill) /\
  (forall booking_id, (bills_for booking_id (bills paid_hotel) <= 1)%nat).
Proof.
  exact (one_bill_per_booking Calendar.strptime Calendar.float_of_str PyStr.strip
           paid_hotel paid_hotel_reachable).
Defined.

Lemma bill_status_is_known_witness :
  Forall (fun bill => Bill.status bill = "UNPAID" \/ Bill.status bill = "PAID")
         (bills paid_hotel).
Proof.
  exact (bill_status_is_known Calendar.strptime Calendar.float_of_str PyStr.strip
           paid_hotel paid_hotel_reachable).
Defined.

Lemma process_payment_accepts_nan_witness :
  exists h',
    process_payment 739052 "i0000001" PrimFloat.nan billed_hotel = (Return true, h') /\
    find_bill h' "i0000001" = Some (Bill.pay 739052 june_bill).
Proof.
  apply (process_payment_accepts_nan billed_hotel 739052 "i0000001" PrimFloat.nan
           june_bill).
  - reflexivity.
  - discriminate.
  - left. reflexivity.
Defined.

Lemma checkout_day_occupied_and_available_witness :
  occupied_on booked_hotel 739041 (Room.mk "101" "Single" 100%float false) = true /\
  is_room_available (bookings booked_hotel) "101" 739041 739045 None = true.
Proof.
  apply (checkout_day_occupied_and_available booked_hotel
           (Room.mk "101" "Single" 100%float false) june_booking 739045).
  - left. reflexivity.
  - reflexivity.
  - simpl. lia.
  - intros b' [<-|[]] _. reflexivity.
Defined.

Lemma guest_statistics_consistent_witness :
  let s := mkStatistics 1 1 0 [("g0000001", "Ada", 2)] in
  fst (generate_guest_statistics twice_booked_hotel) = Return (Some s) /\
  0 <= guests_without_bookings s /\
  guests_without_bookings s <= total_guests s /\
  (forall g name n,
      In (g, name, n) (top_guests s) ->
      exists guest, find_guest twice_booked_hotel g = Some guest /\
                    name = Guest.name guest).
Proof.
  intros s. split; [reflexivity|].
  apply (guest_statistics_consistent Calendar.strptime Calendar.float_of_str PyStr.strip
           twice_booked_hotel s twice_booked_hotel_reachable).
  reflexivity.
Defined.

Example occupancy_on_checkout_day :
  fst (generate_occupancy_report 739041 booked_hotel)
  = Return (Some (mkOccupancy 1 1 100%float [("Single", (1, 1))])).
Proof. reflexivity. Qed.

Example occupancy_after_checkout :
  fst (generate_occupancy_report 739042 booked_hotel)
  = Return (Some (mkOccupancy 1 0 0%float [("Single", (1, 0))])).
Proof. reflexivity. Qed.
